(** * The boxing application: repository, random source, fight engine and ring

    A shallow embedding of [boxing/models/boxers_model.py],
    [boxing/utils/api_utils.py] and [boxing/models/ring_model.py].

    Modelling conventions.
    - Python [int] is [Z]; a [list] is a [list]; [str] is [string], a
      sequence of ASCII characters, so that [len] is [String.length].
    - A finite Python [float] is a rational number.  The modules of the
      three source files model it exactly, as [Q]: arithmetic is carried out
      without rounding, and the one transcendental operation of the program,
      [math.e ** x], is modelled on the reals.  This abstracts from the
      rounding of the interpreter: [get_fighting_skill], the win probability
      in [fight] and [round] in [get_leaderboard] can differ from the
      interpreter's values in the last place.  The module [Binary64] models
      the fight engine with the binary64 arithmetic of the interpreter, and
      the statement that depends on the values computed is made there.  The
      non-finite floats ([inf], [nan]) are outside the exact model.
    - A raised exception is a value of [exn]; a call that may raise returns a
      [result].  Code that mutates state runs in the state-and-exception monad
      [M], in which a raise keeps every mutation made before it.
    - The [boxers] table of the SQLite database is the list of its rows.  The
      database calls themselves are taken to succeed ([sqlite3.Error] is not
      modelled).  Logging has no effect on any modelled value and is left out. *)

From Stdlib Require Import ZArith QArith Qabs Qround Reals Qreals.
From Stdlib Require Import String Ascii List DecimalString.
From Stdlib Require Import Lia Psatz Permutation Sorted Bool.
From Stdlib Require Floats.
Import ListNotations.

Local Open Scope string_scope.
Local Open Scope Z_scope.

(* ================================================================= *)
(** ** Python runtime: exceptions, results, the monad *)

Module Py.

(** The exception classes the three modules raise, and the two the float
    arithmetic of the interpreter raises, with their message. *)
Inductive exn : Type :=
| ValueError (msg : string)
| TypeError (msg : string)
| RuntimeError (msg : string)
| OverflowError (msg : string)
| ZeroDivisionError (msg : string).

(** The class of an exception: what an [except] clause dispatches on. *)
Inductive exn_class : Type :=
| KValueError | KTypeError | KRuntimeError
| KOverflowError | KZeroDivisionError.

Definition class_of (e : exn) : exn_class :=
  match e with
  | ValueError _ => KValueError
  | TypeError _ => KTypeError
  | RuntimeError _ => KRuntimeError
  | OverflowError _ => KOverflowError
  | ZeroDivisionError _ => KZeroDivisionError
  end.

Definition message (e : exn) : string :=
  match e with
  | ValueError m | TypeError m | RuntimeError m
  | OverflowError m | ZeroDivisionError m => m
  end.

Inductive result (A : Type) : Type :=
| Ok (a : A)
| Raise (e : exn).
Arguments Ok {A} a.
Arguments Raise {A} e.

(** [str(n)] for an [int], as an f-string interpolates it. *)
Definition str_of_int (n : Z) : string :=
  NilZero.string_of_int (Z.to_int n).

(** State-and-exception monad over a store [S]. *)
Definition M (S A : Type) : Type := S -> result A * S.

Definition ret {S A} (a : A) : M S A := fun s => (Ok a, s).

Definition raise {S A} (e : exn) : M S A := fun s => (Raise e, s).

Definition bind {S A B} (c : M S A) (k : A -> M S B) : M S B :=
  fun s =>
    match c s with
    | (Ok a, s') => k a s'
    | (Raise e, s') => (Raise e, s')
    end.

(** A pure call that may raise, run inside the monad. *)
Definition lift {S A} (r : result A) : M S A := fun s => (r, s).

Definition get {S} : M S S := fun s => (Ok s, s).

Definition put {S} (s : S) : M S unit := fun _ => (Ok tt, s).

End Py.
Import Py.

Declare Scope py_scope.
Delimit Scope py_scope with py.
Notation "x <- c ;; k" := (bind c (fun x => k))
  (at level 61, c at next level, right associativity) : py_scope.
Notation "c ;; k" := (bind c (fun _ => k))
  (at level 61, right associativity) : py_scope.
Local Open Scope py_scope.

(* ================================================================= *)
(** ** boxers_model.py *)

Module BoxersModel.

(** [get_weight_class(weight)] *)
Definition get_weight_class (weight : Z) : result string :=
  if weight >=? 203 then Ok "HEAVYWEIGHT"
  else if weight >=? 166 then Ok "MIDDLEWEIGHT"
  else if weight >=? 133 then Ok "LIGHTWEIGHT"
  else if weight >=? 125 then Ok "FEATHERWEIGHT"
  else Raise (ValueError ("Invalid weight: " ++ str_of_int weight
                          ++ ". Weight must be at least 125.")).

(** The [Boxer] dataclass.  [weight_class] is the field [__post_init__]
    assigns. *)
Module Boxer.
Record t : Type := mk
  { id : Z;
    name : string;
    weight : Z;
    height : Z;
    reach : Q;
    age : Z;
    weight_class : string }.
End Boxer.

(** [Boxer(id=..., name=..., ...)]: the constructor followed by
    [__post_init__], which raises what [get_weight_class] raises. *)
Definition new_Boxer (id : Z) (name : string) (weight height : Z)
    (reach : Q) (age : Z) : result Boxer.t :=
  match get_weight_class weight with
  | Ok wc => Ok (Boxer.mk id name weight height reach age wc)
  | Raise e => Raise e
  end.

(** A row of the table [boxers]. *)
Record Row : Type := mkRow
  { row_id : Z;
    row_name : string;
    row_weight : Z;
    row_height : Z;
    row_reach : Q;
    row_age : Z;
    row_fights : Z;
    row_wins : Z }.

Definition Table : Type := list Row.

(** [SELECT id FROM boxers WHERE id = ?] followed by [fetchone()]. *)
Definition select_id (boxer_id : Z) (db : Table) : option Z :=
  option_map row_id (find (fun r => row_id r =? boxer_id) db).

(** [UPDATE boxers SET ... WHERE id = ?]: every row with that id is set. *)
Definition update_where_id (boxer_id : Z) (set : Row -> Row) (db : Table)
  : Table :=
  map (fun r => if row_id r =? boxer_id then set r else r) db.

(** [SET fights = fights + 1, wins = wins + 1] *)
Definition set_win (r : Row) : Row :=
  mkRow (row_id r) (row_name r) (row_weight r) (row_height r) (row_reach r)
        (row_age r) (row_fights r + 1) (row_wins r + 1).

(** [SET fights = fights + 1] *)
Definition set_loss (r : Row) : Row :=
  mkRow (row_id r) (row_name r) (row_weight r) (row_height r) (row_reach r)
        (row_age r) (row_fights r + 1) (row_wins r).

(** [update_boxer_stats(boxer_id, result)] *)
Definition update_boxer_stats (boxer_id : Z) (result : string)
  : M Table unit :=
  if negb ((result =? "win")%string || (result =? "loss")%string) then
    raise (ValueError ("Invalid result: " ++ result
                       ++ ". Expected 'win' or 'loss'."))
  else
    db <- get ;;
    match select_id boxer_id db with
    | None =>
        raise (ValueError ("Boxer with ID " ++ str_of_int boxer_id
                           ++ " not found."))
    | Some _ =>
        if (result =? "win")%string
        then put (update_where_id boxer_id set_win db)
        else put (update_where_id boxer_id set_loss db)
    end.

(** *** The leaderboard *)

(** A row of the leaderboard query: the stored columns and the computed
    column [win_pct]. *)
Definition QueryRow : Type := (Row * Q)%type.

(** [(wins * 1.0 / fights) AS win_pct] *)
Definition sql_win_pct (r : Row) : Q :=
  (inject_Z (row_wins r) * 1.0 / inject_Z (row_fights r))%Q.

(** [SELECT ..., (wins * 1.0 / fights) AS win_pct FROM boxers
     WHERE fights > 0] *)
Definition select_fought (db : Table) : list QueryRow :=
  map (fun r => (r, sql_win_pct r)) (filter (fun r => row_fights r >? 0) db).

(** [ORDER BY key DESC], as a stable insertion sort: rows with equal keys
    keep the order of the scan.  SQL leaves the order of ties open; no
    theorem below depends on how they are broken. *)
Fixpoint insert_desc {A : Type} (lt : A -> A -> bool) (x : A) (l : list A)
  : list A :=
  match l with
  | [] => [x]
  | y :: l' => if lt x y then y :: insert_desc lt x l' else x :: l
  end.

Definition order_by_desc {A : Type} (lt : A -> A -> bool) (l : list A)
  : list A :=
  fold_right (insert_desc lt) [] l.

Definition lt_win_pct (a b : QueryRow) : bool :=
  negb (Qle_bool (snd b) (snd a)).

Definition lt_wins (a b : QueryRow) : bool :=
  row_wins (fst a) <? row_wins (fst b).

(** Rounding to the nearest integer, ties to the even one. *)
Definition round_half_even (q : Q) : Z :=
  let f := Qfloor q in
  match (q - inject_Z f ?= 1 # 2)%Q with
  | Lt => f
  | Gt => f + 1
  | Eq => if Z.even f then f else f + 1
  end.

(** [round(x, 1)] of the exact value [x]: the tenth nearest to [x].  The
    interpreter rounds the binary64 product [row[8] * 100], which can lie
    on the other side of a tie. *)
Definition round1 (x : Q) : Q :=
  (inject_Z (round_half_even (x * 10)) / 10)%Q.

(** One dictionary of the list [get_leaderboard] returns, by key. *)
Record Entry : Type := mkEntry
  { e_id : Z;
    e_name : string;
    e_weight : Z;
    e_height : Z;
    e_reach : Q;
    e_age : Z;
    e_weight_class : string;
    e_fights : Z;
    e_wins : Z;
    e_win_pct : Q }.

(** The body of the loop [for row in rows]. *)
Definition entry_of_row (row : QueryRow) : result Entry :=
  let (r, win_pct) := row in
  match get_weight_class (row_weight r) with
  | Ok wc =>
      Ok (mkEntry (row_id r) (row_name r) (row_weight r) (row_height r)
                  (row_reach r) (row_age r) wc (row_fights r) (row_wins r)
                  (round1 (win_pct * 100)))
  | Raise e => Raise e
  end.

(** The loop [for row in rows: ... leaderboard.append(boxer)]: the first
    row that raises ends it. *)
Fixpoint build_leaderboard (rows : list QueryRow) : result (list Entry) :=
  match rows with
  | [] => Ok []
  | row :: rest =>
      match entry_of_row row with
      | Raise e => Raise e
      | Ok boxer =>
          match build_leaderboard rest with
          | Ok leaderboard => Ok (boxer :: leaderboard)
          | Raise e => Raise e
          end
      end
  end.

(** [get_leaderboard(sort_by)]: a read of the table. *)
Definition get_leaderboard (sort_by : string) (db : Table)
  : result (list Entry) :=
  if (sort_by =? "win_pct")%string then
    build_leaderboard (order_by_desc lt_win_pct (select_fought db))
  else if (sort_by =? "wins")%string then
    build_leaderboard (order_by_desc lt_wins (select_fought db))
  else
    Raise (ValueError ("Invalid sort_by parameter: " ++ sort_by)).

(** *** Creation, deletion and lookup *)

Section CreateBoxer.

(** Modelled from the spec: the declaration of the table [boxers] is not
    among the sources.  By section 6 of the specification it reads
    [id PK autoincrement, ..., fights int default 0, wins int default 0]:
    an [INSERT] that names neither column stores no fight and no win, under
    an id the database assigns, [assign_id]. *)
Variable assign_id : Table -> Z.

(** The builtin [str] on a [float], as an f-string interpolates [reach]. *)
Variable str_of_float : Q -> string.

(** [create_boxer(name, weight, height, reach, age)] *)
Definition create_boxer (name : string) (weight height : Z) (reach : Q)
    (age : Z) : M Table unit :=
  if weight <? 125 then
    raise (ValueError ("Invalid weight: " ++ str_of_int weight
                       ++ ". Must be at least 125."))
  else if height <=? 0 then
    raise (ValueError ("Invalid height: " ++ str_of_int height
                       ++ ". Must be greater than 0."))
  else if Qle_bool reach 0 then
    raise (ValueError ("Invalid reach: " ++ str_of_float reach
                       ++ ". Must be greater than 0."))
  else if negb ((18 <=? age) && (age <=? 40)) then
    raise (ValueError ("Invalid age: " ++ str_of_int age
                       ++ ". Must be between 18 and 40."))
  else
    db <- get ;;
    match find (fun r => (row_name r =? name)%string) db with
    | Some _ =>
        raise (ValueError ("Boxer with name '" ++ name ++ "' already exists"))
    | None =>
        put (db ++ [mkRow (assign_id db) name weight height reach age 0 0])%list
    end.

End CreateBoxer.

(** [delete_boxer(boxer_id)] *)
Definition delete_boxer (boxer_id : Z) : M Table unit :=
  db <- get ;;
  match select_id boxer_id db with
  | None =>
      raise (ValueError ("Boxer with ID " ++ str_of_int boxer_id
                         ++ " not found."))
  | Some _ => put (filter (fun r => negb (row_id r =? boxer_id)) db)
  end.

(** [get_boxer_by_id(boxer_id)]: a read of the table. *)
Definition get_boxer_by_id (boxer_id : Z) (db : Table) : result Boxer.t :=
  match find (fun r => row_id r =? boxer_id) db with
  | Some row =>
      new_Boxer (row_id row) (row_name row) (row_weight row)
                (row_height row) (row_reach row) (row_age row)
  | None =>
      Raise (ValueError ("Boxer with ID " ++ str_of_int boxer_id
                         ++ " not found."))
  end.

(** [get_boxer_by_name(boxer_name)]: a read of the table. *)
Definition get_boxer_by_name (boxer_name : string) (db : Table)
  : result Boxer.t :=
  match find (fun r => (row_name r =? boxer_name)%string) db with
  | Some row =>
      new_Boxer (row_id row) (row_name row) (row_weight row)
                (row_height row) (row_reach row) (row_age row)
  | None =>
      Raise (ValueError ("Boxer '" ++ boxer_name ++ "' not found."))
  end.

End BoxersModel.

Import BoxersModel.

(* ================================================================= *)
(** ** api_utils.py *)

Module ApiUtils.

(** What [requests.get(RANDOM_ORG_URL, timeout=5)] followed by
    [response.raise_for_status()] does: the one input of the program that
    comes from the network. *)
Inductive http_outcome : Type :=
| ReqTimeout                  (* raises [requests.exceptions.Timeout] *)
| ReqException (e : string)   (* raises another [RequestException], [str(e)] *)
| ReqText (text : string).    (* returns; [response.text] *)

(** [str.isspace] on an ASCII character. *)
Definition isspace (c : ascii) : bool :=
  let n := nat_of_ascii c in
  ((9 <=? n) && (n <=? 13) || (28 <=? n) && (n <=? 32))%nat.

Fixpoint lstrip (s : string) : string :=
  match s with
  | EmptyString => EmptyString
  | String c s' => if isspace c then lstrip s' else s
  end.

Fixpoint rstrip (s : string) : string :=
  match s with
  | EmptyString => EmptyString
  | String c s' =>
      let r := rstrip s' in
      if isspace c && (r =? "")%string then EmptyString else String c r
  end.

(** [s.strip()] *)
Definition strip (s : string) : string := rstrip (lstrip s).

Section GetRandom.

(** The builtin [float] applied to a [str]: [None] when it raises
    [ValueError]. *)
Variable py_float : string -> option Q.

(** [get_random()] *)
Definition get_random (net : http_outcome) : result Q :=
  match net with
  | ReqText text =>
      let random_number_str := strip text in
      match py_float random_number_str with
      | Some random_number => Ok random_number
      | None =>
          Raise (ValueError ("Invalid response from random.org: "
                             ++ random_number_str))
      end
  | ReqTimeout => Raise (RuntimeError "Request to random.org timed out.")
  | ReqException e =>
      Raise (RuntimeError ("Request to random.org failed: " ++ e))
  end.

End GetRandom.

(** An instance of [float] on the strings the service sends in its plain
    format: digits with at most one decimal point, read exactly.  It serves
    to run the model on concrete responses. *)
Definition digit_of (c : ascii) : option Z :=
  let n := nat_of_ascii c in
  if ((48 <=? n) && (n <=? 57))%nat then Some (Z.of_nat (n - 48)) else None.

Fixpoint read_decimal (s : string) (num : Z) (den : positive)
    (seen_dot seen_digit : bool) : option Q :=
  match s with
  | EmptyString => if seen_digit then Some (num # den) else None
  | String c s' =>
      if (c =? ".")%char then
        if seen_dot then None else read_decimal s' num den true seen_digit
      else
        match digit_of c with
        | Some d =>
            read_decimal s' (10 * num + d)
                         (if seen_dot then 10 * den else den)%positive
                         seen_dot true
        | None => None
        end
  end.

Definition plain_float (s : string) : option Q :=
  read_decimal s 0 1 false false.

End ApiUtils.
Import ApiUtils.

(* ================================================================= *)
(** ** ring_model.py *)

Module RingModel.

(** The argument of [enter_ring]: Python checks its class at run time. *)
Inductive pyobj : Type :=
| PyBoxer (b : Boxer.t)
| PyOther (type_name : string).   (* [type(x).__name__] of anything else *)

(** The store [fight] works on: the list [self.ring] of the one [RingModel]
    and the table [boxers]. *)
Record World : Type := mkWorld
  { ring : list Boxer.t;
    db : Table }.

(** A repository call, run on the table of the world. *)
Definition on_db {A : Type} (c : M Table A) : M World A :=
  fun w => let (r, db') := c (db w) in (r, mkWorld (ring w) db').

(** [get_boxers()] *)
Definition get_boxers : M World (list Boxer.t) :=
  fun w => (Ok (ring w), w).

(** [clear_ring()] *)
Definition clear_ring : M World unit :=
  fun w =>
    match ring w with
    | [] => (Ok tt, w)
    | _ :: _ => (Ok tt, mkWorld [] (db w))
    end.

(** [enter_ring(boxer)] *)
Definition enter_ring (boxer : pyobj) : M World unit :=
  match boxer with
  | PyOther type_name =>
      raise (TypeError ("Invalid type: Expected 'Boxer', got '"
                        ++ type_name ++ "'"))
  | PyBoxer b =>
      w <- get ;;
      if (2 <=? length (ring w))%nat then
        raise (ValueError "Ring is full, cannot add more boxers.")
      else
        put (mkWorld (ring w ++ [b]) (db w))
  end.

(** [get_fighting_skill(boxer)], in exact arithmetic: the sum without the
    rounding of the interpreter, for which see
    [Binary64.get_fighting_skill]. *)
Definition get_fighting_skill (boxer : Boxer.t) : Q :=
  let age_modifier :=
    if Boxer.age boxer <? 25 then -1
    else if Boxer.age boxer >? 35 then -2 else 0 in
  (inject_Z (Boxer.weight boxer * Z.of_nat (String.length (Boxer.name boxer)))
   + Boxer.reach boxer / 10 + inject_Z age_modifier)%Q.

(** [math.e] *)
Definition math_e : R := exp 1.

Section Fight.

Variable py_float : string -> option Q.

(** [fight()].  [net] is what the one request to the random service does.
    The unpacking [boxer_1, boxer_2 = self.get_boxers()] raises on a list
    that does not have two elements.  The skills, their gap and the number
    the draw is compared with are the exact ones; [Binary64.fight] computes
    them as the interpreter does. *)
Definition fight (net : http_outcome) : M World string :=
  w <- get ;;
  if (length (ring w) <? 2)%nat then
    raise (ValueError "There must be two boxers to start a fight.")
  else
    boxers <- get_boxers ;;
    match boxers with
    | [boxer_1; boxer_2] =>
        let skill_1 := get_fighting_skill boxer_1 in
        let skill_2 := get_fighting_skill boxer_2 in
        let delta := Qabs (skill_1 - skill_2) in
        let normalized_delta :=
          (1 / (1 + Rpower math_e (- Q2R delta)))%R in
        random_number <- lift (get_random py_float net) ;;
        let (winner, loser) :=
          if Rlt_dec (Q2R random_number) normalized_delta
          then (boxer_1, boxer_2) else (boxer_2, boxer_1) in
        on_db (update_boxer_stats (Boxer.id winner) "win") ;;
        on_db (update_boxer_stats (Boxer.id loser) "loss") ;;
        clear_ring ;;
        ret (Boxer.name winner)
    | _ => raise (ValueError "too many values to unpack (expected 2)")
    end.

End Fight.

End RingModel.
Import RingModel.

(* ================================================================= *)
(** ** The fight engine in binary64 *)

(** [get_fighting_skill] and [fight] once more, with the arithmetic of the
    interpreter: every float is a binary64 number and every operation on
    floats rounds to the nearest one, ties to even.  The repository calls,
    the ring and the [Boxer] values are those of the modules above; the
    reach of a boxer, the rational [Boxer.reach], is the value of a
    float. *)
Module Binary64.

Import PrimFloat SpecFloat FloatOps.

(** The binary64 number nearest to an integer, [infinity] beyond the
    largest one. *)
Definition nearest (n : Z) : float :=
  SF2Prim (binary_normalize prec emax n 0 false).

(** The conversion of an [int] operand of [+] or [/] whose other operand
    is a float. *)
Definition float_of_int (n : Z) : result float :=
  if is_infinity (nearest n)
  then Raise (OverflowError "int too large to convert to float")
  else Ok (nearest n).

(** The float of value [q]: the quotient of the floats of its numerator
    and denominator in lowest terms, which is [q] itself when [q] is a
    binary64 number. *)
Definition float_of_Q (q : Q) : float :=
  (nearest (Qnum (Qred q)) / nearest (Z.pos (Qden (Qred q))))%float.

(** [x / y] on floats. *)
Definition true_div (x y : float) : result float :=
  if (y =? 0)%float
  then Raise (ZeroDivisionError "float division by zero")
  else Ok (x / y)%float.

(** [get_fighting_skill(boxer)]: the product is an [int], converted when it
    is added to the float [reach / 10]; so is [age_modifier] when it is
    added to their sum. *)
Definition get_fighting_skill (boxer : Boxer.t) : result float :=
  let age_modifier :=
    if Boxer.age boxer <? 25 then -1
    else if Boxer.age boxer >? 35 then -2 else 0 in
  match float_of_int (Boxer.weight boxer
                      * Z.of_nat (String.length (Boxer.name boxer))) with
  | Raise e => Raise e
  | Ok product =>
      match float_of_int age_modifier with
      | Raise e => Raise e
      | Ok modifier =>
          Ok (product + float_of_Q (Boxer.reach boxer) / 10 + modifier)%float
      end
  end.

(** [math.e] *)
Definition math_e : float := 0x1.5bf0a8b145769p+1%float.

Section Engine.

(** The builtin [float] applied to a [str]: [None] when it raises
    [ValueError]. *)
Variable py_float : string -> option float.

(** [x ** y] on two floats, by the power function of the platform. *)
Variable py_pow : float -> float -> result float.

(** [get_random()] *)
Definition get_random (net : http_outcome) : result float :=
  match net with
  | ReqText text =>
      let random_number_str := strip text in
      match py_float random_number_str with
      | Some random_number => Ok random_number
      | None =>
          Raise (ValueError ("Invalid response from random.org: "
                             ++ random_number_str))
      end
  | ReqTimeout => Raise (RuntimeError "Request to random.org timed out.")
  | ReqException e =>
      Raise (RuntimeError ("Request to random.org failed: " ++ e))
  end.

(** [fight()] *)
Definition fight (net : http_outcome) : M World string :=
  w <- get ;;
  if (length (ring w) <? 2)%nat then
    raise (ValueError "There must be two boxers to start a fight.")
  else
    boxers <- get_boxers ;;
    match boxers with
    | [boxer_1; boxer_2] =>
        skill_1 <- lift (get_fighting_skill boxer_1) ;;
        skill_2 <- lift (get_fighting_skill boxer_2) ;;
        let delta := abs (skill_1 - skill_2)%float in
        power <- lift (py_pow math_e (- delta)%float) ;;
        normalized_delta <- lift (true_div 1 (1 + power)%float) ;;
        random_number <- lift (get_random net) ;;
        let (winner, loser) :=
          if (random_number <? normalized_delta)%float
          then (boxer_1, boxer_2) else (boxer_2, boxer_1) in
        on_db (update_boxer_stats (Boxer.id winner) "win") ;;
        on_db (update_boxer_stats (Boxer.id loser) "loss") ;;
        clear_ring ;;
        ret (Boxer.name winner)
    | _ => raise (ValueError "too many values to unpack (expected 2)")
    end.

(** The fight engine in the words of the specification, in the same
    arithmetic: the logistic function of the absolute skill gap as the win
    probability of the first boxer, and [resolve], which computes it, draws
    one random number, declares the first boxer the winner iff the draw is
    below the win probability, records the win and then the loss, and
    returns the winner's name. *)
Definition logistic (delta : float) : result float :=
  match py_pow math_e (- delta)%float with
  | Raise e => Raise e
  | Ok power => true_div 1 (1 + power)%float
  end.

Definition win_probability (boxerA boxerB : Boxer.t) : result float :=
  match get_fighting_skill boxerA with
  | Raise e => Raise e
  | Ok skillA =>
      match get_fighting_skill boxerB with
      | Raise e => Raise e
      | Ok skillB => logistic (abs (skillA - skillB)%float)
      end
  end.

Definition resolve (next_random : result float) (boxerA boxerB : Boxer.t)
  : M Table string :=
  p <- lift (win_probability boxerA boxerB) ;;
  r <- lift next_random ;;
  let (winner, loser) :=
    if (r <? p)%float then (boxerA, boxerB) else (boxerB, boxerA) in
  update_boxer_stats (Boxer.id winner) "win" ;;
  update_boxer_stats (Boxer.id loser) "loss" ;;
  ret (Boxer.name winner).

End Engine.

(** An instance of [float] on the strings the service sends in its plain
    format: the decimal is read exactly and rounded once, as [float] does,
    for a string of at most 15 digits. *)
Definition plain_float (s : string) : option float :=
  option_map float_of_Q (ApiUtils.plain_float s).

End Binary64.

(* ================================================================= *)
(** ** Vocabulary of the statements *)

(** The row stored under an id: the first one, as [fetchone] reads it. *)
Definition find_row (boxer_id : Z) (db : Table) : option Row :=
  find (fun r => row_id r =? boxer_id) db.

(** [r'] is [r] after one more fight, with [dw] more wins; the other
    columns are those of [r]. *)
Definition bumped (dw : Z) (r r' : Row) : Prop :=
  row_id r' = row_id r /\ row_name r' = row_name r /\
  row_weight r' = row_weight r /\ row_height r' = row_height r /\
  row_reach r' = row_reach r /\ row_age r' = row_age r /\
  row_fights r' = row_fights r + 1 /\ row_wins r' = row_wins r + dw.

(** [y] is [x] rounded to one decimal: a whole number of tenths, at most
    half a tenth away from [x]. *)
Definition rounded_to_one_decimal (x y : Q) : Prop :=
  (exists n : Z, y == n # 10)%Q /\ (Qabs (y - x) <= 1 # 20)%Q.

(** The share of won fights of a leaderboard entry. *)
Definition win_ratio (e : Entry) : Q :=
  (inject_Z (e_wins e) / inject_Z (e_fights e))%Q.

(** The entry [e] shows the stored boxer [r]: its columns, the weight class
    of its weight, and its share of won fights as a percentage rounded to
    one decimal. *)
Definition shows (r : Row) (e : Entry) : Prop :=
  e_id e = row_id r /\ e_name e = row_name r /\
  e_weight e = row_weight r /\ e_height e = row_height r /\
  e_reach e = row_reach r /\ e_age e = row_age r /\
  get_weight_class (row_weight r) = Ok (e_weight_class e) /\
  e_fights e = row_fights r /\ e_wins e = row_wins r /\
  rounded_to_one_decimal (100 * win_ratio e) (e_win_pct e).

(** [a] may stand before [b] on a leaderboard sorted by [sort_by]:
    descending wins, or descending share of won fights (and then the
    reported percentages descend as well). *)
Definition stands_before (sort_by : string) (a b : Entry) : Prop :=
  if (sort_by =? "wins")%string then e_wins b <= e_wins a
  else (win_ratio b <= win_ratio a)%Q /\ (e_win_pct b <= e_win_pct a)%Q.

(** The logistic function and the win probability of the first of two
    boxers, in exact arithmetic. *)
Definition logistic (delta : R) : R := (1 / (1 + exp (- delta)))%R.

Definition win_probability (boxerA boxerB : Boxer.t) : R :=
  logistic (Rabs (Q2R (get_fighting_skill boxerA)
                  - Q2R (get_fighting_skill boxerB))).

(** A call on the ring, and a session of calls from the first on. *)
Inductive ring_call : Type :=
| CallEnter (boxer : pyobj)
| CallFight (net : http_outcome)
| CallClear.

Definition run_call (py_float : string -> option Q) (c : ring_call)
    (w : World) : World :=
  match c with
  | CallEnter boxer => snd (enter_ring boxer w)
  | CallFight net => snd (fight py_float net w)
  | CallClear => snd (clear_ring w)
  end.

Definition run_calls (py_float : string -> option Q) (cs : list ring_call)
    (w : World) : World :=
  fold_left (fun w c => run_call py_float c w) cs w.

(** The boxers of the test suite and of the scenario of the
    specification, as [Boxer(...)] builds them, and a table that stores the
    first two without a fight yet. *)
Definition Rocky : Boxer.t := Boxer.mk 1 "Rocky" 190 70 72 28 "MIDDLEWEIGHT".
Definition Creed : Boxer.t := Boxer.mk 2 "Creed" 185 71 73 30 "MIDDLEWEIGHT".
Definition Third : Boxer.t := Boxer.mk 3 "Third" 170 68 70 29 "MIDDLEWEIGHT".
Definition Ali : Boxer.t := Boxer.mk 1 "Ali" 200 70 74 28 "MIDDLEWEIGHT".
Definition Tyson : Boxer.t := Boxer.mk 2 "Tyson" 220 71 71 25 "HEAVYWEIGHT".

Definition gym : Table :=
  [mkRow 1 "Rocky" 190 70 72 28 0 0; mkRow 2 "Creed" 185 71 73 30 0 0].


(* ================================================================= *)
(** ** The repository *)

Section Repository.

Lemma geb_true (a b : Z) : (a >=? b) = true <-> b <= a.
Proof. rewrite Z.geb_leb. apply Z.leb_le. Qed.

Lemma geb_false (a b : Z) : (a >=? b) = false <-> a < b.
Proof. rewrite Z.geb_leb. apply Z.leb_gt. Qed.

Ltac weight_cases w :=
  unfold get_weight_class;
  destruct (w >=? 203) eqn:E203; [apply geb_true in E203 | apply geb_false in E203];
  (destruct (w >=? 166) eqn:E166; [apply geb_true in E166 | apply geb_false in E166]);
  (destruct (w >=? 133) eqn:E133; [apply geb_true in E133 | apply geb_false in E133]);
  (destruct (w >=? 125) eqn:E125; [apply geb_true in E125 | apply geb_false in E125]).

(** C6. For every integer weight [w], [get_weight_class w] returns
    HEAVYWEIGHT iff [w >= 203], MIDDLEWEIGHT iff [166 <= w < 203],
    LIGHTWEIGHT iff [133 <= w < 166], FEATHERWEIGHT iff [125 <= w < 133],
    and raises the invalid-weight [ValueError] iff [w < 125]. *)
Theorem get_weight_class_thresholds (w : Z) :
  (get_weight_class w = Ok "HEAVYWEIGHT" <-> 203 <= w) /\
  (get_weight_class w = Ok "MIDDLEWEIGHT" <-> 166 <= w < 203) /\
  (get_weight_class w = Ok "LIGHTWEIGHT" <-> 133 <= w < 166) /\
  (get_weight_class w = Ok "FEATHERWEIGHT" <-> 125 <= w < 133) /\
  (get_weight_class w
   = Raise (ValueError ("Invalid weight: " ++ str_of_int w
                        ++ ". Weight must be at least 125."))
   <-> w < 125).
Proof.
  weight_cases w;
    repeat split; intros; try lia; try discriminate; try reflexivity.
Qed.

(** *** Stat updates *)

Lemma select_id_find_row (boxer_id : Z) (db : Table) :
  select_id boxer_id db = option_map row_id (find_row boxer_id db).
Proof. reflexivity. Qed.

Lemma find_row_update_same (boxer_id : Z) (set : Row -> Row) (db : Table) :
  (forall r, row_id (set r) = row_id r) ->
  find_row boxer_id (update_where_id boxer_id set db)
  = option_map set (find_row boxer_id db).
Proof.
  intros Hid. unfold find_row, update_where_id.
  induction db as [|r db IH]; simpl; [reflexivity|].
  destruct (row_id r =? boxer_id) eqn:E.
  - rewrite Hid, E. reflexivity.
  - rewrite E. exact IH.
Qed.

Lemma find_row_update_other (boxer_id j : Z) (set : Row -> Row) (db : Table) :
  j <> boxer_id ->
  (forall r, row_id (set r) = row_id r) ->
  find_row j (update_where_id boxer_id set db) = find_row j db.
Proof.
  intros Hj Hid. unfold find_row, update_where_id.
  induction db as [|r db IH]; simpl; [reflexivity|].
  destruct (row_id r =? boxer_id) eqn:E.
  - rewrite Hid. apply Z.eqb_eq in E.
    assert ((row_id r =? j) = false) as -> by (apply Z.eqb_neq; lia).
    exact IH.
  - destruct (row_id r =? j); [reflexivity | exact IH].
Qed.

Lemma update_stored (boxer_id : Z) (outcome : string) (db : Table) (r : Row) :
  find_row boxer_id db = Some r ->
  outcome = "win" \/ outcome = "loss" ->
  update_boxer_stats boxer_id outcome db
  = (Ok tt, update_where_id boxer_id
              (if (outcome =? "win")%string then set_win else set_loss) db).
Proof.
  intros Hr Ho.
  destruct Ho as [-> | ->]; cbv [update_boxer_stats bind get put]; simpl;
    rewrite select_id_find_row, Hr; reflexivity.
Qed.

Lemma update_win_stored (boxer_id : Z) (db : Table) (r : Row) :
  find_row boxer_id db = Some r ->
  update_boxer_stats boxer_id "win" db
  = (Ok tt, update_where_id boxer_id set_win db).
Proof. intros Hr. apply (update_stored _ "win" _ r Hr). left. reflexivity. Qed.

Lemma update_loss_stored (boxer_id : Z) (db : Table) (r : Row) :
  find_row boxer_id db = Some r ->
  update_boxer_stats boxer_id "loss" db
  = (Ok tt, update_where_id boxer_id set_loss db).
Proof. intros Hr. apply (update_stored _ "loss" _ r Hr). right. reflexivity. Qed.

Lemma update_absent (boxer_id : Z) (outcome : string) (db : Table) :
  find_row boxer_id db = None ->
  outcome = "win" \/ outcome = "loss" ->
  update_boxer_stats boxer_id outcome db
  = (Raise (ValueError ("Boxer with ID " ++ str_of_int boxer_id
                        ++ " not found.")), db).
Proof.
  intros Hr Ho.
  destruct Ho as [-> | ->]; cbv [update_boxer_stats bind get raise]; simpl;
    rewrite select_id_find_row, Hr; reflexivity.
Qed.

Lemma update_invalid (boxer_id : Z) (outcome : string) (db : Table) :
  outcome <> "win" -> outcome <> "loss" ->
  update_boxer_stats boxer_id outcome db
  = (Raise (ValueError ("Invalid result: " ++ outcome
                        ++ ". Expected 'win' or 'loss'.")), db).
Proof.
  intros Hw Hl. unfold update_boxer_stats.
  apply String.eqb_neq in Hw, Hl. rewrite Hw, Hl. reflexivity.
Qed.

(** C7. For a stored id, [update_boxer_stats id "win"] adds one to the
    boxer's fights and one to its wins, and [update_boxer_stats id "loss"]
    adds one to its fights only; the boxers stored under other ids are as
    before.  An outcome other than "win" and "loss" raises the
    invalid-result [ValueError], and an absent id with a valid outcome
    raises the not-found [ValueError]; the table is unchanged in both. *)
Theorem update_boxer_stats_spec (db : Table) (boxer_id : Z) :
  (forall r, find_row boxer_id db = Some r ->
     exists db' r',
       update_boxer_stats boxer_id "win" db = (Ok tt, db') /\
       find_row boxer_id db' = Some r' /\ bumped 1 r r' /\
       forall j, j <> boxer_id -> find_row j db' = find_row j db) /\
  (forall r, find_row boxer_id db = Some r ->
     exists db' r',
       update_boxer_stats boxer_id "loss" db = (Ok tt, db') /\
       find_row boxer_id db' = Some r' /\ bumped 0 r r' /\
       forall j, j <> boxer_id -> find_row j db' = find_row j db) /\
  (forall outcome, outcome <> "win" -> outcome <> "loss" ->
     update_boxer_stats boxer_id outcome db
     = (Raise (ValueError ("Invalid result: " ++ outcome
                           ++ ". Expected 'win' or 'loss'.")), db)) /\
  (forall outcome, find_row boxer_id db = None ->
     outcome = "win" \/ outcome = "loss" ->
     update_boxer_stats boxer_id outcome db
     = (Raise (ValueError ("Boxer with ID " ++ str_of_int boxer_id
                           ++ " not found.")), db)).
Proof.
  repeat split.
  - intros r Hr. exists (update_where_id boxer_id set_win db), (set_win r).
    rewrite (update_win_stored _ _ r Hr).
    rewrite find_row_update_same, Hr by reflexivity.
    repeat split; simpl; try lia.
    intros j Hj. apply find_row_update_other; [exact Hj | reflexivity].
  - intros r Hr. exists (update_where_id boxer_id set_loss db), (set_loss r).
    rewrite (update_loss_stored _ _ r Hr).
    rewrite find_row_update_same, Hr by reflexivity.
    repeat split; simpl; try lia.
    intros j Hj. apply find_row_update_other; [exact Hj | reflexivity].
  - intros outcome Hw Hl. apply update_invalid; assumption.
  - intros outcome Hr Ho. apply update_absent; assumption.
Qed.

(** The theorem at the table of two boxers, for the stored id 2, the
    absent id 9 and the outcome "draw". *)
Lemma update_boxer_stats_spec_witness :
  let db := [mkRow 1 "Ali" 200 70 74 28 10 8;
             mkRow 2 "Tyson" 220 71 71 25 15 10] in
  (exists db' r',
     update_boxer_stats 2 "win" db = (Ok tt, db') /\
     find_row 2 db' = Some r' /\ row_fights r' = 16 /\ row_wins r' = 11) /\
  (exists db' r',
     update_boxer_stats 2 "loss" db = (Ok tt, db') /\
     find_row 2 db' = Some r' /\ row_fights r' = 16 /\ row_wins r' = 10) /\
  update_boxer_stats 2 "draw" db
  = (Raise (ValueError "Invalid result: draw. Expected 'win' or 'loss'."), db) /\
  update_boxer_stats 9 "win" db
  = (Raise (ValueError "Boxer with ID 9 not found."), db).
Proof.
  intros db.
  destruct (update_boxer_stats_spec db 2) as (Hwin & Hloss & Hbad & _).
  destruct (update_boxer_stats_spec db 9) as (_ & _ & _ & Habsent).
  destruct (Hwin (mkRow 2 "Tyson" 220 71 71 25 15 10) eq_refl)
    as (db1 & r1 & E1 & F1 & B1 & _).
  destruct (Hloss (mkRow 2 "Tyson" 220 71 71 25 15 10) eq_refl)
    as (db2 & r2 & E2 & F2 & B2 & _).
  unfold bumped in B1, B2. simpl in B1, B2.
  split; [exists db1, r1; repeat split; [exact E1 | exact F1 | lia | lia]|].
  split; [exists db2, r2; repeat split; [exact E2 | exact F2 | lia | lia]|].
  split.
  - apply (Hbad "draw"); discriminate.
  - apply (Habsent "win"); [reflexivity | left; reflexivity].
Defined.

(** *** ORDER BY *)

Section OrderBy.

Context {A : Type} (lt : A -> A -> bool).
Hypothesis lt_asym : forall x y, lt x y = true -> lt y x = false.
Hypothesis ge_trans :
  forall x y z, lt x y = false -> lt y z = false -> lt x z = false.

Let before (x y : A) : Prop := lt x y = false.

Lemma insert_desc_perm (x : A) (l : list A) :
  Permutation (insert_desc lt x l) (x :: l).
Proof.
  induction l as [|y l IH]; simpl; [apply Permutation_refl|].
  destruct (lt x y).
  - eapply perm_trans; [apply perm_skip, IH | apply perm_swap].
  - apply Permutation_refl.
Qed.

Lemma insert_desc_sorted (x : A) (l : list A) :
  StronglySorted before l -> StronglySorted before (insert_desc lt x l).
Proof.
  induction 1 as [|y l Hl IH Hy]; simpl.
  - constructor; constructor.
  - destruct (lt x y) eqn:E.
    + constructor; [exact IH|].
      eapply Permutation_Forall;
        [apply Permutation_sym, insert_desc_perm|].
      constructor; [apply lt_asym, E | exact Hy].
    + constructor; [constructor; assumption|].
      constructor; [exact E|].
      eapply Forall_impl; [|exact Hy].
      intros z Hz. eapply ge_trans; [exact E | exact Hz].
Qed.

Lemma order_by_desc_perm (l : list A) : Permutation (order_by_desc lt l) l.
Proof.
  induction l as [|x l IH]; simpl; [constructor|].
  eapply perm_trans; [apply insert_desc_perm | apply perm_skip, IH].
Qed.

Lemma order_by_desc_sorted (l : list A) :
  StronglySorted before (order_by_desc lt l).
Proof.
  induction l as [|x l IH]; simpl; [constructor|].
  apply insert_desc_sorted, IH.
Qed.

End OrderBy.

Lemma StronglySorted_weaken {A : Type} (R R' : A -> A -> Prop) (l : list A) :
  (forall a b, R a b -> R' a b) -> StronglySorted R l -> StronglySorted R' l.
Proof.
  intros HR. induction 1 as [|x l Hl IH Hx]; constructor; [exact IH|].
  eapply Forall_impl; [|exact Hx]. intros b; apply HR.
Qed.

Lemma sorted_by_wins (rows : list QueryRow) :
  StronglySorted (fun a b => row_wins (fst b) <= row_wins (fst a))
                 (order_by_desc lt_wins rows).
Proof.
  eapply StronglySorted_weaken; [|apply order_by_desc_sorted].
  - intros a b H. apply Z.ltb_ge. exact H.
  - unfold lt_wins. intros x y H. apply Z.ltb_lt in H. apply Z.ltb_ge. lia.
  - unfold lt_wins. intros x y z H1 H2.
    apply Z.ltb_ge in H1, H2. apply Z.ltb_ge. lia.
Qed.

Lemma lt_win_pct_false (a b : QueryRow) :
  lt_win_pct a b = false <-> (snd b <= snd a)%Q.
Proof.
  unfold lt_win_pct. rewrite negb_false_iff. apply Qle_bool_iff.
Qed.

Lemma lt_win_pct_true (a b : QueryRow) :
  lt_win_pct a b = true <-> (snd a < snd b)%Q.
Proof.
  unfold lt_win_pct. rewrite negb_true_iff, <- not_true_iff_false.
  rewrite Qle_bool_iff. split; [apply Qnot_le_lt | apply Qlt_not_le].
Qed.

Lemma sorted_by_win_pct (rows : list QueryRow) :
  StronglySorted (fun a b => (snd b <= snd a)%Q)
                 (order_by_desc lt_win_pct rows).
Proof.
  eapply StronglySorted_weaken; [|apply order_by_desc_sorted].
  - intros a b H. apply lt_win_pct_false. exact H.
  - intros x y H. apply lt_win_pct_true in H. apply lt_win_pct_false.
    apply Qlt_le_weak, H.
  - intros x y z H1 H2. apply lt_win_pct_false in H1, H2.
    apply lt_win_pct_false. eapply Qle_trans; eassumption.
Qed.

(** *** Rounding *)

Lemma round_half_even_near (q : Q) :
  (Qabs (inject_Z (round_half_even q) - q) <= 1 # 2)%Q.
Proof.
  unfold round_half_even.
  pose proof (Qfloor_le q) as Hlo. pose proof (Qlt_floor q) as Hhi.
  rewrite inject_Z_plus in Hhi. change (inject_Z 1) with 1%Q in Hhi.
  apply Qabs_Qle_condition.
  destruct (Qcompare_spec (q - inject_Z (Qfloor q)) (1 # 2)) as [E|E|E];
    [destruct (Z.even (Qfloor q))| |];
    rewrite ?inject_Z_plus; change (inject_Z 1) with 1%Q; split; lra.
Qed.

Lemma round_half_even_bounds (q : Q) :
  Qfloor q <= round_half_even q <= Qfloor q + 1.
Proof.
  unfold round_half_even.
  destruct (q - inject_Z (Qfloor q) ?= 1 # 2)%Q;
    [destruct (Z.even (Qfloor q))| |]; lia.
Qed.

Lemma round_half_even_mono (x y : Q) :
  (x <= y)%Q -> round_half_even x <= round_half_even y.
Proof.
  intros Hxy. pose proof (Qfloor_resp_le x y Hxy) as Hf.
  destruct (Z.eq_dec (Qfloor x) (Qfloor y)) as [Heq|Hne].
  - unfold round_half_even. rewrite Heq.
    destruct (Qcompare_spec (x - inject_Z (Qfloor y)) (1 # 2)) as [E1|E1|E1];
      destruct (Qcompare_spec (y - inject_Z (Qfloor y)) (1 # 2)) as [E2|E2|E2];
      try destruct (Z.even (Qfloor y)); try lia; exfalso; lra.
  - pose proof (round_half_even_bounds x). pose proof (round_half_even_bounds y).
    lia.
Qed.

Lemma round1_spec (x : Q) : rounded_to_one_decimal x (round1 x).
Proof.
  unfold rounded_to_one_decimal, round1. split.
  - exists (round_half_even (x * 10)).
    unfold Qdiv, Qmult, Qinv, Qeq, inject_Z. simpl. lia.
  - pose proof (round_half_even_near (x * 10)) as H.
    apply Qabs_Qle_condition in H. apply Qabs_Qle_condition.
    unfold Qdiv. change (/ 10)%Q with (1 # 10)%Q. split; lra.
Qed.

Lemma rounded_compat (x x' y : Q) :
  (x == x')%Q -> rounded_to_one_decimal x y -> rounded_to_one_decimal x' y.
Proof.
  intros Hx [Hn Hd]. split; [exact Hn|].
  apply Qabs_Qle_condition in Hd. apply Qabs_Qle_condition. split; lra.
Qed.

Lemma round1_mono (x y : Q) : (x <= y)%Q -> (round1 x <= round1 y)%Q.
Proof.
  intros Hxy. unfold round1.
  assert (round_half_even (x * 10) <= round_half_even (y * 10)) as H
    by (apply round_half_even_mono; lra).
  rewrite Zle_Qle in H. unfold Qdiv. change (/ 10)%Q with (1 # 10)%Q. lra.
Qed.

(** *** The leaderboard *)

Lemma sql_win_pct_ratio (r : Row) :
  (sql_win_pct r == inject_Z (row_wins r) / inject_Z (row_fights r))%Q.
Proof.
  unfold sql_win_pct, Qdiv.
  setoid_replace (1.0)%Q with 1%Q by reflexivity. ring.
Qed.

Lemma entry_of_row_ok (row : QueryRow) :
  125 <= row_weight (fst row) ->
  snd row = sql_win_pct (fst row) ->
  exists e, entry_of_row row = Ok e /\ shows (fst row) e /\
            (win_ratio e == snd row)%Q /\
            e_win_pct e = round1 (snd row * 100).
Proof.
  destruct row as [r pct]. simpl. intros Hw ->. unfold entry_of_row.
  destruct (get_weight_class (row_weight r)) as [wc|e] eqn:Hwc.
  - eexists. split; [reflexivity|]. split; [|split].
    + unfold shows. simpl.
      repeat (split; [reflexivity || assumption |]).
      apply (rounded_compat (sql_win_pct r * 100)); [|apply round1_spec].
      unfold win_ratio. simpl. rewrite sql_win_pct_ratio. ring.
    + unfold win_ratio. simpl. symmetry. apply sql_win_pct_ratio.
    + reflexivity.
  - exfalso. revert Hwc. unfold get_weight_class.
    destruct (row_weight r >=? 203); [discriminate|].
    destruct (row_weight r >=? 166); [discriminate|].
    destruct (row_weight r >=? 133); [discriminate|].
    destruct (row_weight r >=? 125) eqn:E; [discriminate|].
    apply geb_false in E. lia.
Qed.

Lemma build_leaderboard_ok (rows : list QueryRow) :
  Forall (fun row => 125 <= row_weight (fst row)
                     /\ snd row = sql_win_pct (fst row)) rows ->
  exists board,
    build_leaderboard rows = Ok board /\
    Forall2 (fun row e => shows (fst row) e /\ (win_ratio e == snd row)%Q /\
                          e_win_pct e = round1 (snd row * 100)) rows board.
Proof.
  induction 1 as [|row rows [Hw Hp] Hrows (board & Hb & Hall)]; simpl.
  - exists []. split; [reflexivity | constructor].
  - destruct (entry_of_row_ok row Hw Hp) as (e & He & Hshow).
    exists (e :: board). rewrite He, Hb. split; [reflexivity|].
    constructor; assumption.
Qed.

Lemma StronglySorted_Forall2 {A B : Type} (R : A -> A -> Prop)
    (R' : B -> B -> Prop) (P : A -> B -> Prop) (l : list A) (l' : list B) :
  (forall a b a' b', R a b -> P a a' -> P b b' -> R' a' b') ->
  Forall2 P l l' -> StronglySorted R l -> StronglySorted R' l'.
Proof.
  intros HR HP. induction HP as [|a a' l l' Ha HP IH]; intros Hs.
  - constructor.
  - inversion Hs as [|? ? Hl Hhd]; subst. constructor; [apply IH, Hl|].
    clear IH Hs Hl. induction HP as [|b b' l l' Hb HP IH]; constructor.
    + inversion Hhd; subst. eapply HR; eassumption.
    + apply IH. inversion Hhd; assumption.
Qed.

Lemma select_fought_rows (db : Table) :
  map fst (select_fought db) = filter (fun r => row_fights r >? 0) db.
Proof.
  unfold select_fought. rewrite map_map. simpl. apply map_id.
Qed.

Lemma select_fought_ok (db : Table) :
  Forall (fun r => 125 <= row_weight r) db ->
  Forall (fun row => 125 <= row_weight (fst row)
                     /\ snd row = sql_win_pct (fst row)) (select_fought db).
Proof.
  intros H. unfold select_fought. apply Forall_map. simpl.
  apply Forall_forall. intros r Hr. apply filter_In in Hr.
  rewrite Forall_forall in H. split; [apply H, Hr | reflexivity].
Qed.

(** The leaderboard of a sorted query: what [get_leaderboard] does after
    the sort, for either key. *)
Lemma leaderboard_of_sorted (db : Table) (sorted : list QueryRow) :
  Forall (fun r => 125 <= row_weight r) db ->
  Permutation sorted (select_fought db) ->
  exists board,
    build_leaderboard sorted = Ok board /\
    Permutation (map fst sorted) (filter (fun r => row_fights r >? 0) db) /\
    Forall2 shows (map fst sorted) board /\
    Forall2 (fun row e => (win_ratio e == snd row)%Q /\
                          e_win_pct e = round1 (snd row * 100) /\
                          e_wins e = row_wins (fst row)) sorted board.
Proof.
  intros Hw Hperm.
  destruct (build_leaderboard_ok sorted) as (board & Hb & Hall).
  { eapply Permutation_Forall;
      [apply Permutation_sym, Hperm | apply select_fought_ok, Hw]. }
  exists board. split; [exact Hb|]. split; [|split].
  - rewrite <- select_fought_rows. apply Permutation_map, Hperm.
  - clear Hb Hperm. induction Hall as [|row e rows board (Hs & _) _ IH];
      simpl; constructor; assumption.
  - eapply Forall2_impl; [|exact Hall]. simpl.
    intros row e (Hs & Hr & Hp). repeat split; try assumption.
    apply Hs.
Qed.

(** C9. On a table whose weights are valid (at least 125, as [create_boxer]
    stores them), [get_leaderboard] with [sort_by] "wins" or "win_pct"
    returns entries for exactly the boxers with fights > 0, in descending
    order of the chosen key, each with [win_pct] equal to wins/fights as a
    percentage rounded to one decimal; any other [sort_by] raises the
    invalid-parameter [ValueError]. *)
Theorem get_leaderboard_spec (db : Table) (sort_by : string) :
  Forall (fun r => 125 <= row_weight r) db ->
  (sort_by = "wins" \/ sort_by = "win_pct" ->
   exists rows board,
     get_leaderboard sort_by db = Ok board /\
     Permutation rows (filter (fun r => row_fights r >? 0) db) /\
     Forall2 shows rows board /\
     StronglySorted (stands_before sort_by) board) /\
  (sort_by <> "wins" -> sort_by <> "win_pct" ->
   get_leaderboard sort_by db
   = Raise (ValueError ("Invalid sort_by parameter: " ++ sort_by))).
Proof.
  intros Hw. split.
  - intros [-> | ->]; unfold get_leaderboard; simpl.
    + destruct (leaderboard_of_sorted db (order_by_desc lt_wins (select_fought db)) Hw)
        as (board & Hb & Hperm & Hshow & Hkeys);
        [apply order_by_desc_perm|].
      exists (map fst (order_by_desc lt_wins (select_fought db))), board.
      repeat split; try assumption.
      eapply StronglySorted_Forall2; [|exact Hkeys|apply sorted_by_wins].
      unfold stands_before. simpl.
      intros a b a' b' Hab (_ & _ & Ha) (_ & _ & Hb'). lia.
    + destruct (leaderboard_of_sorted db (order_by_desc lt_win_pct (select_fought db)) Hw)
        as (board & Hb & Hperm & Hshow & Hkeys);
        [apply order_by_desc_perm|].
      exists (map fst (order_by_desc lt_win_pct (select_fought db))), board.
      repeat split; try assumption.
      eapply StronglySorted_Forall2; [|exact Hkeys|apply sorted_by_win_pct].
      unfold stands_before. simpl.
      intros a b a' b' Hab (Ha & Hpa & _) (Hb' & Hpb & _). split.
      * rewrite Ha, Hb'. exact Hab.
      * rewrite Hpa, Hpb. apply round1_mono. lra.
  - intros H1 H2. unfold get_leaderboard.
    apply String.eqb_neq in H1, H2. rewrite H1, H2. reflexivity.
Qed.

(** The theorem at a table of three boxers, one of them without a fight,
    for both keys and for the key "unknown". *)
Lemma get_leaderboard_spec_witness :
  let db := [mkRow 1 "Ali" 200 70 74 28 10 8;
             mkRow 2 "Tyson" 220 71 71 25 15 10;
             mkRow 3 "Rocky" 190 70 72 28 0 0] in
  (exists board,
     get_leaderboard "wins" db = Ok board /\
     map e_name board = ["Tyson"; "Ali"] /\
     StronglySorted (stands_before "wins") board) /\
  (exists board,
     get_leaderboard "win_pct" db = Ok board /\
     map e_name board = ["Ali"; "Tyson"] /\
     map e_win_pct board = [80.0; 66.7]%Q /\
     StronglySorted (stands_before "win_pct") board) /\
  get_leaderboard "unknown" db
  = Raise (ValueError "Invalid sort_by parameter: unknown").
Proof.
  intros db.
  assert (Forall (fun r => 125 <= row_weight r) db) as Hw
    by (repeat constructor; simpl; lia).
  split; [|split].
  - destruct (get_leaderboard_spec db "wins" Hw) as [Hok _].
    destruct (Hok (or_introl eq_refl)) as (rows & board & Hb & _ & _ & Hs).
    exists board. split; [exact Hb|].
    split; [|exact Hs].
    vm_compute in Hb. injection Hb as <-. reflexivity.
  - destruct (get_leaderboard_spec db "win_pct" Hw) as [Hok _].
    destruct (Hok (or_intror eq_refl)) as (rows & board & Hb & _ & _ & Hs).
    exists board. split; [exact Hb|].
    vm_compute in Hb. injection Hb as <-.
    split; [reflexivity|]. split; [reflexivity | exact Hs].
  - destruct (get_leaderboard_spec db "unknown" Hw) as [_ Hbad].
    apply Hbad; discriminate.
Defined.

End Repository.

(* ================================================================= *)
(** ** The random source *)

Section RandomSource.

Variable py_float : string -> option Q.

(** C5 as the code has it. [get_random] raises [RuntimeError] on a timeout
    and on any other transport failure, with two messages that are never
    equal, and [ValueError] when the stripped body is not a float; it
    returns the float otherwise. *)
Theorem get_random_errors :
  get_random py_float ReqTimeout
  = Raise (RuntimeError "Request to random.org timed out.") /\
  (forall e, get_random py_float (ReqException e)
             = Raise (RuntimeError ("Request to random.org failed: " ++ e))) /\
  (forall e, "Request to random.org timed out."
             <> "Request to random.org failed: " ++ e) /\
  (forall text,
     get_random py_float (ReqText text)
     = match py_float (strip text) with
       | Some x => Ok x
       | None => Raise (ValueError ("Invalid response from random.org: "
                                    ++ strip text))
       end).
Proof.
  repeat split; intros; try reflexivity.
  simpl. discriminate.
Qed.

End RandomSource.

(** C5 as the specification states it fails: a timeout and a refused
    connection raise exceptions of one and the same class, which differ in
    their message only. *)
Lemma get_random_timeout_class_not_distinct :
  exists e1 e2,
    get_random plain_float ReqTimeout = Raise e1 /\
    get_random plain_float (ReqException "Connection refused") = Raise e2 /\
    class_of e1 = class_of e2 /\ message e1 <> message e2.
Proof.
  eexists. eexists. split; [reflexivity|]. split; [reflexivity|].
  split; [reflexivity | discriminate].
Qed.

(* ================================================================= *)
(** ** The fight engine *)

Section Engine.

Lemma Rpower_math_e (x : R) : Rpower math_e x = exp x.
Proof.
  unfold Rpower, math_e. rewrite ln_exp. f_equal. lra.
Qed.

Lemma Q2R_Qabs (q : Q) : Q2R (Qabs q) = Rabs (Q2R q).
Proof.
  apply Qabs_case; intros H.
  - apply Qle_Rle in H. rewrite RMicromega.Q2R_0 in H.
    symmetry. apply Rabs_right. lra.
  - apply Qle_Rle in H. rewrite RMicromega.Q2R_0 in H.
    rewrite Q2R_opp. symmetry. apply Rabs_left1. exact H.
Qed.

(** The number [fight] compares the draw with is the logistic function of
    the absolute difference of the two skills. *)
Lemma normalized_delta_logistic (boxer_1 boxer_2 : Boxer.t) :
  (1 / (1 + Rpower math_e
            (- Q2R (Qabs (get_fighting_skill boxer_1
                          - get_fighting_skill boxer_2)))))%R
  = win_probability boxer_1 boxer_2.
Proof.
  unfold win_probability, logistic.
  rewrite Rpower_math_e, Q2R_Qabs, Q2R_minus. reflexivity.
Qed.

Lemma logistic_bounds (delta : R) :
  (0 <= delta -> 1 / 2 <= logistic delta < 1)%R.
Proof.
  intros Hd. unfold logistic.
  pose proof (exp_pos (- delta)) as Hpos.
  assert (exp (- delta) <= 1)%R as Hle.
  { rewrite <- exp_0. destruct Hd as [Hd | <-].
    - left. apply exp_increasing. lra.
    - rewrite Ropp_0. right. reflexivity. }
  assert (1 / (1 + exp (- delta)) * (1 + exp (- delta)) = 1)%R as Hinv
    by (field; lra).
  split.
  - apply Rmult_le_reg_r with (1 + exp (- delta))%R; [lra|].
    rewrite Hinv. lra.
  - apply Rmult_lt_reg_r with (1 + exp (- delta))%R; [lra|].
    rewrite Hinv. lra.
Qed.

Lemma logistic_0 : logistic 0 = (1 / 2)%R.
Proof. unfold logistic. rewrite Ropp_0, exp_0. lra. Qed.



End Engine.

(* ================================================================= *)
(** ** The ring *)

Section Ring.

Variable py_float : string -> option Q.

(** [fight] on a ring of two, call by call. *)
Lemma fight_ready (boxer_1 boxer_2 : Boxer.t) (db : Table)
    (net : http_outcome) :
  fight py_float net (mkWorld [boxer_1; boxer_2] db)
  = match get_random py_float net with
    | Raise e => (Raise e, mkWorld [boxer_1; boxer_2] db)
    | Ok r =>
        let (winner, loser) :=
          if Rlt_dec (Q2R r) (win_probability boxer_1 boxer_2)
          then (boxer_1, boxer_2) else (boxer_2, boxer_1) in
        match update_boxer_stats (Boxer.id winner) "win" db with
        | (Raise e, db1) => (Raise e, mkWorld [boxer_1; boxer_2] db1)
        | (Ok _, db1) =>
            match update_boxer_stats (Boxer.id loser) "loss" db1 with
            | (Raise e, db2) => (Raise e, mkWorld [boxer_1; boxer_2] db2)
            | (Ok _, db2) => (Ok (Boxer.name winner), mkWorld [] db2)
            end
        end
    end.
Proof.
  unfold fight, bind, get, get_boxers, lift.
  cbn [ring length Nat.ltb Nat.leb].
  rewrite normalized_delta_logistic.
  destruct (get_random py_float net) as [r|e]; [|reflexivity].
  destruct (Rlt_dec (Q2R r) (win_probability boxer_1 boxer_2)) as [Hlt|Hge];
    unfold on_db, clear_ring, ret; cbn [ring RingModel.db].
  - destruct (update_boxer_stats (Boxer.id boxer_1) "win" db) as [[[]|e1] db1];
      [|reflexivity].
    cbn [ring RingModel.db].
    destruct (update_boxer_stats (Boxer.id boxer_2) "loss" db1) as [[[]|e2] db2];
      reflexivity.
  - destruct (update_boxer_stats (Boxer.id boxer_2) "win" db) as [[[]|e1] db1];
      [|reflexivity].
    cbn [ring RingModel.db].
    destruct (update_boxer_stats (Boxer.id boxer_1) "loss" db1) as [[[]|e2] db2];
      reflexivity.
Qed.

(** C2. With two boxers in the ring, an exception of [get_random] is the
    exception of [fight], and the table (and the ring) are as before: no
    counter of either boxer is touched. *)
Theorem fight_random_failure (boxer_1 boxer_2 : Boxer.t) (db : Table)
    (net : http_outcome) (e : exn) :
  get_random py_float net = Raise e ->
  fight py_float net (mkWorld [boxer_1; boxer_2] db)
  = (Raise e, mkWorld [boxer_1; boxer_2] db).
Proof.
  intros H. rewrite fight_ready, H. reflexivity.
Qed.

(** C4 as the code has it. After [fight] on a ring of two, the ring is
    empty when [fight] returned and still holds the two boxers when it
    raised. *)
Theorem fight_clears_on_success (boxer_1 boxer_2 : Boxer.t) (db : Table)
    (net : http_outcome) :
  match fight py_float net (mkWorld [boxer_1; boxer_2] db) with
  | (Ok _, w') => ring w' = []
  | (Raise _, w') => ring w' = [boxer_1; boxer_2]
  end.
Proof.
  rewrite fight_ready.
  destruct (get_random py_float net) as [r|e]; [|reflexivity].
  destruct (Rlt_dec (Q2R r) (win_probability boxer_1 boxer_2)) as [Hlt|Hge].
  - destruct (update_boxer_stats (Boxer.id boxer_1) "win" db) as [[[]|e1] db1];
      [|reflexivity].
    destruct (update_boxer_stats (Boxer.id boxer_2) "loss" db1) as [[[]|e2] db2];
      reflexivity.
  - destruct (update_boxer_stats (Boxer.id boxer_2) "win" db) as [[[]|e1] db1];
      [|reflexivity].
    destruct (update_boxer_stats (Boxer.id boxer_1) "loss" db1) as [[[]|e2] db2];
      reflexivity.
Qed.

(** *** Capacity *)

Lemma enter_ring_full (boxer : pyobj) (w : World) :
  (2 <= length (ring w))%nat ->
  exists e, enter_ring boxer w = (Raise e, w) /\
            forall b, boxer = PyBoxer b ->
                      e = ValueError "Ring is full, cannot add more boxers.".
Proof.
  intros Hfull. destruct boxer as [b|type_name].
  - eexists. unfold enter_ring, bind, get, raise.
    apply Nat.leb_le in Hfull. rewrite Hfull. split; reflexivity.
  - eexists. split; [reflexivity|]. intros b Hb. discriminate Hb.
Qed.

Lemma enter_ring_ok (boxer : pyobj) (w w' : World) :
  enter_ring boxer w = (Ok tt, w') ->
  exists b, boxer = PyBoxer b /\ (length (ring w) < 2)%nat /\
            w' = mkWorld (ring w ++ [b]) (db w).
Proof.
  destruct boxer as [b|type_name]; [|discriminate].
  unfold enter_ring, bind, get, put, raise.
  destruct (2 <=? length (ring w))%nat eqn:E; [discriminate|].
  intros H. injection H as <-. apply Nat.leb_gt in E.
  exists b. repeat split. exact E.
Qed.

Lemma enter_ring_capacity (boxer : pyobj) (w : World) :
  (length (ring w) <= 2)%nat ->
  (length (ring (snd (enter_ring boxer w))) <= 2)%nat.
Proof.
  intros Hw. destruct boxer as [b|type_name]; [|exact Hw].
  unfold enter_ring, bind, get, put, raise.
  destruct (2 <=? length (ring w))%nat eqn:E; simpl; [exact Hw|].
  apply Nat.leb_gt in E. rewrite length_app. simpl. lia.
Qed.

Lemma fight_too_few (net : http_outcome) (w : World) :
  (length (ring w) < 2)%nat ->
  fight py_float net w
  = (Raise (ValueError "There must be two boxers to start a fight."), w).
Proof.
  intros Hw. unfold fight, bind, get, raise.
  apply Nat.ltb_lt in Hw. rewrite Hw. reflexivity.
Qed.

(** [fight] leaves the ring as it was or empties it. *)
Lemma fight_ring (net : http_outcome) (w : World) :
  ring (snd (fight py_float net w)) = ring w
  \/ ring (snd (fight py_float net w)) = [].
Proof.
  destruct w as [[|a [|b [|c l]]] d].
  - left. rewrite fight_too_few by (simpl; lia). reflexivity.
  - left. rewrite fight_too_few by (simpl; lia). reflexivity.
  - rewrite fight_ready.
    destruct (get_random py_float net) as [r|e]; [|left; reflexivity].
    destruct (Rlt_dec (Q2R r) (win_probability a b)) as [Hlt|Hge].
    + destruct (update_boxer_stats (Boxer.id a) "win" d) as [[[]|e1] d1];
        [|left; reflexivity].
      destruct (update_boxer_stats (Boxer.id b) "loss" d1) as [[[]|e2] d2];
        [right | left]; reflexivity.
    + destruct (update_boxer_stats (Boxer.id b) "win" d) as [[[]|e1] d1];
        [|left; reflexivity].
      destruct (update_boxer_stats (Boxer.id a) "loss" d1) as [[[]|e2] d2];
        [right | left]; reflexivity.
  - left. reflexivity.
Qed.

Lemma run_call_capacity (c : ring_call) (w : World) :
  (length (ring w) <= 2)%nat ->
  (length (ring (run_call py_float c w)) <= 2)%nat.
Proof.
  intros Hw. destruct c as [boxer|net|]; simpl.
  - apply enter_ring_capacity, Hw.
  - destruct (fight_ring net w) as [-> | ->]; [exact Hw | simpl; lia].
  - unfold clear_ring. destruct (ring w) eqn:E; simpl; [rewrite E|]; simpl; lia.
Qed.

Lemma run_calls_capacity (cs : list ring_call) (w : World) :
  (length (ring w) <= 2)%nat ->
  (length (ring (run_calls py_float cs w)) <= 2)%nat.
Proof.
  revert w. induction cs as [|c cs IH]; intros w Hw; simpl; [exact Hw|].
  apply IH, run_call_capacity, Hw.
Qed.

(** C8. The ring never holds more than two boxers, whatever calls are made
    on a new ring.  After two successful [enter_ring] calls, every further
    [enter_ring] fails and leaves the ring as it is, with the ring-is-full
    [ValueError] when its argument is a [Boxer]; and [fight] on a ring of
    fewer than two fails with the two-boxers [ValueError] and leaves the
    ring as it is. *)
Theorem ring_capacity :
  (forall cs db0,
     (length (ring (run_calls py_float cs (mkWorld [] db0))) <= 2)%nat) /\
  (forall w x1 x2 w1 w2 x3,
     enter_ring x1 w = (Ok tt, w1) ->
     enter_ring x2 w1 = (Ok tt, w2) ->
     exists e, enter_ring x3 w2 = (Raise e, w2) /\
               forall b, x3 = PyBoxer b ->
                 e = ValueError "Ring is full, cannot add more boxers.") /\
  (forall w net,
     (length (ring w) < 2)%nat ->
     fight py_float net w
     = (Raise (ValueError "There must be two boxers to start a fight."), w)).
Proof.
  split; [|split].
  - intros cs db0. apply run_calls_capacity. simpl. lia.
  - intros w x1 x2 w1 w2 x3 H1 H2.
    apply enter_ring_ok in H1 as (b1 & _ & _ & ->).
    apply enter_ring_ok in H2 as (b2 & _ & _ & ->).
    apply enter_ring_full. simpl. rewrite !length_app. simpl. lia.
  - intros w net Hw. apply fight_too_few, Hw.
Qed.

(** *** One boxer in both corners *)

(** C10. [enter_ring] does not look for duplicates: a boxer [b] enters
    both slots of an empty ring.  The skill gap is then 0 and the win
    probability one half; when [b] is stored and the random draw succeeds,
    [fight] returns the name of [b], empties the ring, and has added two
    fights and one win to the row of [b], the other boxers being as
    before. *)
Theorem same_boxer_twice (b : Boxer.t) (db : Table) (row : Row)
    (net : http_outcome) (r : Q) :
  find_row (Boxer.id b) db = Some row ->
  get_random py_float net = Ok r ->
  enter_ring (PyBoxer b) (mkWorld [] db) = (Ok tt, mkWorld [b] db) /\
  enter_ring (PyBoxer b) (mkWorld [b] db) = (Ok tt, mkWorld [b; b] db) /\
  (Qabs (get_fighting_skill b - get_fighting_skill b) == 0)%Q /\
  win_probability b b = (1 / 2)%R /\
  exists db' row',
    fight py_float net (mkWorld [b; b] db)
    = (Ok (Boxer.name b), mkWorld [] db') /\
    find_row (Boxer.id b) db' = Some row' /\
    row_fights row' = row_fights row + 2 /\
    row_wins row' = row_wins row + 1 /\
    forall j, j <> Boxer.id b -> find_row j db' = find_row j db.
Proof.
  intros Hrow Hnet. split; [reflexivity|]. split; [reflexivity|]. split; [|split].
  - setoid_replace (get_fighting_skill b - get_fighting_skill b)%Q with 0%Q
      by ring.
    reflexivity.
  - unfold win_probability. rewrite Rminus_diag, Rabs_R0. apply logistic_0.
  - exists (update_where_id (Boxer.id b) set_loss
              (update_where_id (Boxer.id b) set_win db)).
    exists (set_loss (set_win row)).
    assert (find_row (Boxer.id b) (update_where_id (Boxer.id b) set_win db)
            = Some (set_win row)) as Hrow1
      by (rewrite find_row_update_same, Hrow by reflexivity; reflexivity).
    rewrite fight_ready, Hnet.
    assert (forall winner loser : Boxer.t,
              (winner, loser) = (b, b) ->
              (let (winner, loser) := (winner, loser) in
               match update_boxer_stats (Boxer.id winner) "win" db with
               | (Raise e, db1) => (Raise e, mkWorld [b; b] db1)
               | (Ok _, db1) =>
                   match update_boxer_stats (Boxer.id loser) "loss" db1 with
                   | (Raise e, db2) => (Raise e, mkWorld [b; b] db2)
                   | (Ok _, db2) => (Ok (Boxer.name winner), mkWorld [] db2)
                   end
               end)
              = (Ok (Boxer.name b),
                 mkWorld [] (update_where_id (Boxer.id b) set_loss
                               (update_where_id (Boxer.id b) set_win db))))
      as Hpair.
    { intros winner loser [= -> ->].
      rewrite (update_win_stored _ _ row Hrow).
      rewrite (update_loss_stored _ _ _ Hrow1).
      reflexivity. }
    split.
    + destruct (Rlt_dec (Q2R r) (win_probability b b));
        apply Hpair; reflexivity.
    + rewrite find_row_update_same, Hrow1 by reflexivity.
      repeat split; simpl; try lia.
      intros j Hj. rewrite !find_row_update_other by (assumption || reflexivity).
      reflexivity.
Qed.

(** *** The scenario of Ali and Tyson *)



Lemma delta_Ali_Tyson :
  (Qabs (get_fighting_skill Ali - get_fighting_skill Tyson) == 499.7)%Q.
Proof. reflexivity. Qed.






End Ring.

(* ================================================================= *)
(** ** The fight in binary64 *)

(** Two boxers whose skills are equal in exact arithmetic and one rounding
    step apart in binary64, and a table that stores them. *)
Definition AAAA : Boxer.t := Boxer.mk 1 "AAAA" 126 70 72 28 "FEATHERWEIGHT".
Definition BBB : Boxer.t := Boxer.mk 2 "BBB" 169 70 62 38 "MIDDLEWEIGHT".

Definition club : Table :=
  [mkRow 1 "AAAA" 126 70 72 28 0 0; mkRow 2 "BBB" 169 70 62 38 0 0].

Section RingBinary64.

Import PrimFloat.

Variable py_float : string -> option PrimFloat.float.
Variable py_pow :
  PrimFloat.float -> PrimFloat.float -> result PrimFloat.float.

(** C1. With boxers [boxerA] and [boxerB] in the ring in that order,
    [fight] is [resolve]: it computes the win probability
    [1 / (1 + e ** (-|skillA - skillB|))], draws one random number [r],
    declares [boxerA] the winner iff [r] is below the win probability and
    [boxerB] otherwise, records the winner's win and then the loser's loss,
    and returns the winner's name; the ring is emptied when this succeeds
    and kept when it raises. *)
Theorem fight_binary64_is_resolve (boxerA boxerB : Boxer.t) (db : Table)
    (net : http_outcome) :
  Binary64.fight py_float py_pow net (mkWorld [boxerA; boxerB] db)
  = let (res, db') :=
      Binary64.resolve py_pow (Binary64.get_random py_float net)
                       boxerA boxerB db in
    (res, mkWorld match res with
                  | Ok _ => []
                  | Raise _ => [boxerA; boxerB]
                  end db').
Proof.
  unfold Binary64.fight, Binary64.resolve, Binary64.win_probability,
    Binary64.logistic, bind, get, get_boxers, lift.
  cbn [ring length Nat.ltb Nat.leb].
  destruct (Binary64.get_fighting_skill boxerA) as [skillA|e]; [|reflexivity].
  destruct (Binary64.get_fighting_skill boxerB) as [skillB|e]; [|reflexivity].
  destruct (py_pow Binary64.math_e
              (PrimFloat.opp (PrimFloat.abs (PrimFloat.sub skillA skillB))))
    as [power|e]; [|reflexivity].
  destruct (Binary64.true_div 1 (1 + power)%float) as [p|e];
    [|reflexivity].
  destruct (Binary64.get_random py_float net) as [r|e]; [|reflexivity].
  destruct (PrimFloat.ltb r p); unfold on_db, clear_ring, ret;
    cbn [ring RingModel.db].
  - destruct (update_boxer_stats (Boxer.id boxerA) "win" db)
      as [[[]|e1] db1]; [|reflexivity].
    cbn [ring RingModel.db].
    destruct (update_boxer_stats (Boxer.id boxerB) "loss" db1)
      as [[[]|e2] db2]; reflexivity.
  - destruct (update_boxer_stats (Boxer.id boxerB) "win" db)
      as [[[]|e1] db1]; [|reflexivity].
    cbn [ring RingModel.db].
    destruct (update_boxer_stats (Boxer.id boxerA) "loss" db1)
      as [[[]|e2] db2]; reflexivity.
Qed.

(** The skills of AAAA and BBB: 511.2 and 511.20000000000005 in binary64,
    where the exact sums are equal. *)
Lemma skills_AAAA_BBB :
  Binary64.get_fighting_skill AAAA = Ok 0x1.ff33333333333p+8%float /\
  Binary64.get_fighting_skill BBB = Ok 0x1.ff33333333334p+8%float /\
  (RingModel.get_fighting_skill AAAA == RingModel.get_fighting_skill BBB)%Q.
Proof. repeat split. Qed.

(** AAAA against BBB at the draw 0.50: the gap is [2^-44], and where the
    power function returns the float nearest to [e^(-2^-44)], the win
    probability is 0.5000000000000142 and [fight] returns AAAA. *)
Lemma fight_AAAA_BBB :
  py_float "0.50" = Some 0.5%float ->
  py_pow Binary64.math_e (-0x1p-44)%float = Ok 0x1.ffffffffffep-1%float ->
  Binary64.win_probability py_pow AAAA BBB = Ok 0x1.000000000008p-1%float /\
  Binary64.fight py_float py_pow (ReqText "0.50") (mkWorld [AAAA; BBB] club)
  = (Ok "AAAA",
     mkWorld [] [mkRow 1 "AAAA" 126 70 72 28 1 1;
                 mkRow 2 "BBB" 169 70 62 38 1 0]).
Proof.
  intros Hdraw Hpow.
  assert (Binary64.win_probability py_pow AAAA BBB
          = Ok 0x1.000000000008p-1%float) as Hp.
  { unfold Binary64.win_probability. rewrite (proj1 skills_AAAA_BBB).
    rewrite (proj1 (proj2 skills_AAAA_BBB)). unfold Binary64.logistic.
    change (PrimFloat.opp (PrimFloat.abs
              (PrimFloat.sub 0x1.ff33333333333p+8 0x1.ff33333333334p+8)))
      with (-0x1p-44)%float.
    rewrite Hpow. reflexivity. }
  split; [exact Hp|].
  unfold Binary64.win_probability, Binary64.logistic in Hp.
  unfold Binary64.fight, bind, get, get_boxers, lift.
  cbn [ring length Nat.ltb Nat.leb].
  destruct (Binary64.get_fighting_skill AAAA) as [skillA|e];
    [|discriminate Hp].
  destruct (Binary64.get_fighting_skill BBB) as [skillB|e];
    [|discriminate Hp].
  destruct (py_pow Binary64.math_e (- abs (skillA - skillB))%float)
    as [power|e]; [|discriminate Hp].
  rewrite Hp. unfold Binary64.get_random.
  change (strip "0.50") with "0.50". rewrite Hdraw. reflexivity.
Qed.

End RingBinary64.

(* ================================================================= *)
(** ** The theorems on concrete rings *)

(** C2 at the response "abc": the draw raises, and so does the fight of
    Rocky and Creed, with the table as it was. *)
Lemma fight_random_failure_witness :
  get_random plain_float (ReqText "abc")
  = Raise (ValueError "Invalid response from random.org: abc") /\
  fight plain_float (ReqText "abc") (mkWorld [Rocky; Creed] gym)
  = (Raise (ValueError "Invalid response from random.org: abc"),
     mkWorld [Rocky; Creed] gym).
Proof.
  split; [reflexivity|].
  apply (fight_random_failure plain_float Rocky Creed gym (ReqText "abc")).
  reflexivity.
Defined.



(** C4 as the specification states it fails: when the request times out,
    and when the winner is not stored, [fight] raises and Rocky and Creed
    are still in the ring. *)
Lemma fight_error_keeps_ring :
  (exists e w',
     fight plain_float ReqTimeout (mkWorld [Rocky; Creed] gym)
     = (Raise e, w') /\ ring w' = [Rocky; Creed] /\ ring w' <> []) /\
  (exists e w',
     fight plain_float (ReqText "0.40") (mkWorld [Rocky; Creed] [])
     = (Raise e, w') /\ ring w' = [Rocky; Creed] /\ ring w' <> []).
Proof.
  split.
  - eexists. eexists. rewrite fight_ready. simpl.
    split; [reflexivity|]. split; [reflexivity | discriminate].
  - rewrite fight_ready.
    change (get_random plain_float (ReqText "0.40")) with (@Ok Q 0.40%Q).
    cbv iota.
    match goal with
    | |- context [Rlt_dec ?x ?p] => destruct (Rlt_dec x p)
    end;
      eexists; eexists; (split; [reflexivity|]);
      (split; [reflexivity | discriminate]).
Qed.

(** C8 on the ring of the test suite: Rocky and Creed enter, Third does
    not, and a fight with Rocky alone is refused. *)
Lemma ring_capacity_witness :
  enter_ring (PyBoxer Rocky) (mkWorld [] gym)
  = (Ok tt, mkWorld [Rocky] gym) /\
  enter_ring (PyBoxer Creed) (mkWorld [Rocky] gym)
  = (Ok tt, mkWorld [Rocky; Creed] gym) /\
  enter_ring (PyBoxer Third) (mkWorld [Rocky; Creed] gym)
  = (Raise (ValueError "Ring is full, cannot add more boxers."),
     mkWorld [Rocky; Creed] gym) /\
  fight plain_float (ReqText "0.40") (mkWorld [Rocky] gym)
  = (Raise (ValueError "There must be two boxers to start a fight."),
     mkWorld [Rocky] gym) /\
  (length (ring (run_calls plain_float
                   [CallEnter (PyBoxer Rocky); CallEnter (PyBoxer Creed);
                    CallEnter (PyBoxer Third)] (mkWorld [] gym))) <= 2)%nat.
Proof.
  destruct (ring_capacity plain_float) as (Hcap & Hfull & Hfew).
  split; [reflexivity|]. split; [reflexivity|]. split; [|split].
  - destruct (Hfull (mkWorld [] gym) (PyBoxer Rocky) (PyBoxer Creed)
                    (mkWorld [Rocky] gym) (mkWorld [Rocky; Creed] gym)
                    (PyBoxer Third) eq_refl eq_refl) as (e & He & Hmsg).
    rewrite He, (Hmsg Third eq_refl). reflexivity.
  - apply Hfew. simpl. lia.
  - apply Hcap.
Defined.

(** C10 for Rocky against Rocky at the draw 0.40. *)
Lemma same_boxer_twice_witness :
  find_row (Boxer.id Rocky) gym = Some (mkRow 1 "Rocky" 190 70 72 28 0 0) /\
  get_random plain_float (ReqText "0.40") = Ok 0.40%Q /\
  win_probability Rocky Rocky = (1 / 2)%R /\
  exists db',
    fight plain_float (ReqText "0.40") (mkWorld [Rocky; Rocky] gym)
    = (Ok "Rocky", mkWorld [] db') /\
    option_map row_fights (find_row 1 db') = Some 2 /\
    option_map row_wins (find_row 1 db') = Some 1.
Proof.
  split; [reflexivity|]. split; [reflexivity|].
  destruct (same_boxer_twice plain_float Rocky gym
              (mkRow 1 "Rocky" 190 70 72 28 0 0) (ReqText "0.40") 0.40%Q
              eq_refl eq_refl)
    as (_ & _ & _ & Hp & db' & row' & Hf & Hrow & Hfights & Hwins & _).
  split; [exact Hp|].
  exists db'. split; [exact Hf|].
  change (Boxer.id Rocky) with 1 in Hrow. rewrite Hrow. simpl in *.
  split; f_equal; lia.
Defined.

(* ================================================================= *)
(** ** Vocabulary of the further statements *)

(** The row stored under a name: the first one, as [fetchone] reads it. *)
Definition find_name (boxer_name : string) (db : Table) : option Row :=
  find (fun r => (row_name r =? boxer_name)%string) db.

(** The arguments [create_boxer] accepts on a table. *)
Definition creatable (name : string) (weight height : Z) (reach : Q)
    (age : Z) (db : Table) : Prop :=
  125 <= weight /\ 0 < height /\ (0 < reach)%Q /\ 18 <= age <= 40 /\
  find_name name db = None.

(** The boxer [b] is the profile of the row [r]: its biographical columns
    and the weight class of its weight. *)
Definition profile_of (r : Row) (b : Boxer.t) : Prop :=
  b = Boxer.mk (row_id r) (row_name r) (row_weight r) (row_height r)
               (row_reach r) (row_age r) (Boxer.weight_class b) /\
  get_weight_class (row_weight r) = Ok (Boxer.weight_class b).

(** What the repository keeps true of a row and of the table. *)
Definition row_valid (r : Row) : Prop :=
  125 <= row_weight r /\ 0 < row_height r /\ (0 < row_reach r)%Q /\
  18 <= row_age r <= 40 /\ 0 <= row_wins r <= row_fights r.

Definition db_valid (db : Table) : Prop :=
  Forall row_valid db /\ NoDup (map row_name db).

(** A call on the repository that writes, and a session of such calls. *)
Inductive repo_call : Type :=
| RepoCreate (name : string) (weight height : Z) (reach : Q) (age : Z)
| RepoDelete (boxer_id : Z)
| RepoUpdate (boxer_id : Z) (result : string).

Definition run_repo_call (assign_id : Table -> Z) (str_of_float : Q -> string)
    (c : repo_call) (db : Table) : Table :=
  match c with
  | RepoCreate name weight height reach age =>
      snd (create_boxer assign_id str_of_float name weight height reach age db)
  | RepoDelete boxer_id => snd (delete_boxer boxer_id db)
  | RepoUpdate boxer_id result => snd (update_boxer_stats boxer_id result db)
  end.

Definition run_repo_calls (assign_id : Table -> Z)
    (str_of_float : Q -> string) (cs : list repo_call) (db : Table) : Table :=
  fold_left (fun db c => run_repo_call assign_id str_of_float c db) cs db.

(** The fights and the wins of the whole table. *)
Definition total_fights (db : Table) : Z :=
  fold_right Z.add 0 (map row_fights db).

Definition total_wins (db : Table) : Z :=
  fold_right Z.add 0 (map row_wins db).

(** Instances to run the model on concrete tables: the id after the
    largest one stored, and [str] on a float that is a whole number. *)
Definition next_rowid (db : Table) : Z :=
  1 + fold_right Z.max 0 (map row_id db).

Definition str_of_whole_float (x : Q) : string :=
  str_of_int (Qfloor x) ++ ".0".

(* ================================================================= *)
(** ** Creating, deleting and looking up boxers *)

Section Crud.

Variable assign_id : Table -> Z.
Variable str_of_float : Q -> string.

Lemma create_boxer_creatable (name : string) (weight height : Z) (reach : Q)
    (age : Z) (db : Table) :
  creatable name weight height reach age db ->
  create_boxer assign_id str_of_float name weight height reach age db
  = (Ok tt, (db ++ [mkRow (assign_id db) name weight height reach age 0 0])%list).
Proof.
  intros (Hw & Hh & Hr & Ha & Hn). unfold create_boxer.
  assert ((weight <? 125) = false) as -> by (apply Z.ltb_ge; lia).
  assert ((height <=? 0) = false) as -> by (apply Z.leb_gt; lia).
  assert (Qle_bool reach 0 = false) as ->.
  { apply not_true_iff_false. rewrite Qle_bool_iff. apply Qlt_not_le, Hr. }
  assert (((18 <=? age) && (age <=? 40)) = true) as ->
    by (apply andb_true_iff; split; apply Z.leb_le; lia).
  unfold bind, get, put, raise. cbn [negb]. unfold find_name in Hn.
  rewrite Hn. reflexivity.
Qed.

Lemma create_boxer_not_creatable (name : string) (weight height : Z)
    (reach : Q) (age : Z) (db : Table) :
  ~ creatable name weight height reach age db ->
  exists msg,
    create_boxer assign_id str_of_float name weight height reach age db = (Raise (ValueError msg), db).
Proof.
  intros Hno. unfold create_boxer.
  destruct (Z.ltb_spec weight 125) as [Hw|Hw]; [eexists; reflexivity|].
  destruct (Z.leb_spec height 0) as [Hh|Hh]; [eexists; reflexivity|].
  destruct (Qle_bool reach 0) eqn:Hr; [eexists; reflexivity|].
  destruct ((18 <=? age) && (age <=? 40)) eqn:Ha; [|eexists; reflexivity].
  unfold bind, get, put, raise. cbn [negb].
  destruct (find (fun r => (row_name r =? name)%string) db) eqn:Hn;
    [eexists; reflexivity|].
  exfalso. apply Hno. apply andb_true_iff in Ha as [Ha1 Ha2].
  apply Z.leb_le in Ha1, Ha2.
  apply not_true_iff_false in Hr. rewrite Qle_bool_iff in Hr.
  repeat split; try lia; try assumption.
  apply Qnot_le_lt, Hr.
Qed.

Lemma creatable_dec (name : string) (weight height : Z) (reach : Q)
    (age : Z) (db : Table) :
  creatable name weight height reach age db
  \/ ~ creatable name weight height reach age db.
Proof.
  unfold creatable.
  destruct (Z.le_gt_cases 125 weight); [|right; lia].
  destruct (Z.lt_ge_cases 0 height); [|right; lia].
  destruct (Qlt_le_dec 0 reach) as [Hr|Hr];
    [|right; intros (_ & _ & Hr' & _); apply (Qlt_not_le _ _ Hr' Hr)].
  destruct (Z.le_gt_cases 18 age); [|right; lia].
  destruct (Z.le_gt_cases age 40); [|right; lia].
  destruct (find_name name db) eqn:Hn;
    [right; intros (_ & _ & _ & _ & Hn'); discriminate | left].
  repeat split; assumption.
Qed.

(** X1. [create_boxer] stores the boxer exactly when the weight is at least
    125, height and reach are positive, the age is between 18 and 40 and no
    boxer of that name is stored; the new row then comes last, with no
    fight and no win.  In every other case it raises a [ValueError] and the
    table is as before. *)
Theorem create_boxer_outcome (name : string) (weight height : Z) (reach : Q)
    (age : Z) (db : Table) :
  (creatable name weight height reach age db <->
   create_boxer assign_id str_of_float name weight height reach age db
   = (Ok tt, (db ++ [mkRow (assign_id db) name weight height reach age 0 0])%list)) /\
  (~ creatable name weight height reach age db <->
   exists msg,
     create_boxer assign_id str_of_float name weight height reach age db
     = (Raise (ValueError msg), db)).
Proof.
  split; split.
  - apply create_boxer_creatable.
  - intros Hok.
    destruct (creatable_dec name weight height reach age db) as [H|H];
      [exact H|].
    apply create_boxer_not_creatable in H as (msg & Hmsg).
    rewrite Hmsg in Hok. discriminate Hok.
  - apply create_boxer_not_creatable.
  - intros (msg & Hmsg) Hok.
    apply create_boxer_creatable in Hok. rewrite Hok in Hmsg.
    discriminate Hmsg.
Qed.

Lemma find_snoc {A : Type} (p : A -> bool) (l : list A) (x : A) :
  find p (l ++ [x])
  = match find p l with
    | Some y => Some y
    | None => if p x then Some x else None
    end.
Proof.
  induction l as [|y l IH]; simpl; [reflexivity|].
  destruct (p y); [reflexivity | exact IH].
Qed.

Lemma get_weight_class_ok (weight : Z) :
  125 <= weight -> exists wc, get_weight_class weight = Ok wc.
Proof.
  intros Hw. unfold get_weight_class.
  destruct (weight >=? 203); [eexists; reflexivity|].
  destruct (weight >=? 166); [eexists; reflexivity|].
  destruct (weight >=? 133); [eexists; reflexivity|].
  destruct (weight >=? 125) eqn:E; [eexists; reflexivity|].
  apply geb_false in E. lia.
Qed.

(** The table after [create_boxer]: as before, or with the new row. *)
Lemma create_boxer_table (name : string) (weight height : Z) (reach : Q)
    (age : Z) (db : Table) :
  (creatable name weight height reach age db /\
   snd (create_boxer assign_id str_of_float name weight height reach age db)
   = (db ++ [mkRow (assign_id db) name weight height reach age 0 0])%list)
  \/ snd (create_boxer assign_id str_of_float name weight height reach age db)
     = db.
Proof.
  destruct (creatable_dec name weight height reach age db) as [H|H].
  - left. split; [exact H|]. rewrite (create_boxer_creatable _ _ _ _ _ _ H).
    reflexivity.
  - right. apply create_boxer_not_creatable in H as (msg & ->). reflexivity.
Qed.

(** X2. Under a name that is stored, [create_boxer] never stores anything,
    whatever the other arguments: it raises a [ValueError] and the table is
    as before.  The error is the already-exists one when the other
    arguments are valid; an invalid argument is reported first. *)
Theorem create_boxer_duplicate (name : string) (weight height : Z)
    (reach : Q) (age : Z) (db : Table) (stored : Row) :
  find_name name db = Some stored ->
  exists msg,
    create_boxer assign_id str_of_float name weight height reach age db
    = (Raise (ValueError msg), db) /\
    (125 <= weight -> 0 < height -> (0 < reach)%Q -> 18 <= age <= 40 ->
     msg = "Boxer with name '" ++ name ++ "' already exists").
Proof.
  intros Hs.
  destruct (create_boxer_not_creatable name weight height reach age db)
    as (msg & Hmsg).
  { intros (_ & _ & _ & _ & Hn). rewrite Hs in Hn. discriminate Hn. }
  exists msg. split; [exact Hmsg|].
  intros Hw Hh Hr Ha. revert Hmsg. unfold create_boxer.
  assert ((weight <? 125) = false) as -> by (apply Z.ltb_ge; lia).
  assert ((height <=? 0) = false) as -> by (apply Z.leb_gt; lia).
  assert (Qle_bool reach 0 = false) as ->.
  { apply not_true_iff_false. rewrite Qle_bool_iff. apply Qlt_not_le, Hr. }
  assert (((18 <=? age) && (age <=? 40)) = true) as ->
    by (apply andb_true_iff; split; apply Z.leb_le; lia).
  unfold bind, get, put, raise. cbn [negb]. unfold find_name in Hs.
  rewrite Hs. intros [= <-]. reflexivity.
Qed.

(** X3. A boxer that [create_boxer] stored is what [get_boxer_by_name]
    returns for its name: the assigned id, the five arguments of the
    creation, and the weight class of the weight.  [get_boxer_by_id] returns
    the same boxer for the assigned id when that id was not stored
    before. *)
Theorem create_then_get (name : string) (weight height : Z) (reach : Q)
    (age : Z) (db : Table) :
  creatable name weight height reach age db ->
  exists wc,
    get_weight_class weight = Ok wc /\
    get_boxer_by_name name
      (snd (create_boxer assign_id str_of_float name weight height reach age db))
    = Ok (Boxer.mk (assign_id db) name weight height reach age wc) /\
    (find_row (assign_id db) db = None ->
     get_boxer_by_id (assign_id db)
       (snd (create_boxer assign_id str_of_float name weight height reach age db))
     = Ok (Boxer.mk (assign_id db) name weight height reach age wc)).
Proof.
  intros Hc. rewrite (create_boxer_creatable _ _ _ _ _ _ Hc). cbn [snd].
  destruct Hc as (Hw & _ & _ & _ & Hn).
  destruct (get_weight_class_ok weight Hw) as (wc & Hwc).
  exists wc. split; [exact Hwc|]. split.
  - unfold get_boxer_by_name. rewrite find_snoc. unfold find_name in Hn.
    rewrite Hn. cbn [row_name]. rewrite String.eqb_refl.
    unfold new_Boxer. cbn [row_weight]. rewrite Hwc. reflexivity.
  - intros Hid. unfold get_boxer_by_id. rewrite find_snoc.
    unfold find_row in Hid. rewrite Hid. cbn [row_id]. rewrite Z.eqb_refl.
    unfold new_Boxer. cbn [row_weight]. rewrite Hwc. reflexivity.
Qed.

(** X4. [create_boxer] leaves the stored boxers alone, whether it succeeds
    or raises: every stored row is still found under its id, with its
    fights and wins, and the lookups by another name or by another id than
    the assigned one return what they returned. *)
Theorem create_boxer_keeps_others (name : string) (weight height : Z)
    (reach : Q) (age : Z) (db : Table) :
  let db' :=
    snd (create_boxer assign_id str_of_float name weight height reach age db)
  in
  (forall j r, find_row j db = Some r -> find_row j db' = Some r) /\
  (forall j, j <> assign_id db ->
             get_boxer_by_id j db' = get_boxer_by_id j db) /\
  (forall n, n <> name -> get_boxer_by_name n db' = get_boxer_by_name n db).
Proof.
  intros db'. subst db'.
  destruct (create_boxer_table name weight height reach age db)
    as [[_ ->] | ->]; [|repeat split; congruence].
  split; [|split].
  - intros j r Hr. unfold find_row in *. rewrite find_snoc, Hr. reflexivity.
  - intros j Hj. unfold get_boxer_by_id. rewrite find_snoc. cbn [row_id].
    apply not_eq_sym, Z.eqb_neq in Hj. rewrite Hj.
    destruct (find (fun r => row_id r =? j) db); reflexivity.
  - intros n Hn. unfold get_boxer_by_name. rewrite find_snoc. cbn [row_name].
    apply not_eq_sym, String.eqb_neq in Hn. rewrite Hn.
    destruct (find (fun r => (row_name r =? n)%string) db); reflexivity.
Qed.

(** X5. A boxer just created has no fight, so [create_boxer] never changes
    the leaderboard, for any [sort_by]. *)
Theorem create_boxer_keeps_leaderboard (name : string) (weight height : Z)
    (reach : Q) (age : Z) (db : Table) (sort_by : string) :
  get_leaderboard sort_by
    (snd (create_boxer assign_id str_of_float name weight height reach age db))
  = get_leaderboard sort_by db.
Proof.
  destruct (create_boxer_table name weight height reach age db)
    as [[_ ->] | ->]; [|reflexivity].
  assert (select_fought
            (db ++ [mkRow (assign_id db) name weight height reach age 0 0])%list
          = select_fought db) as Hsel.
  { unfold select_fought. rewrite filter_app. simpl. rewrite app_nil_r.
    reflexivity. }
  unfold get_leaderboard. rewrite Hsel. reflexivity.
Qed.

(** *** Deletion *)

Lemma delete_boxer_stored (boxer_id : Z) (db : Table) (r : Row) :
  find_row boxer_id db = Some r ->
  delete_boxer boxer_id db
  = (Ok tt, filter (fun r => negb (row_id r =? boxer_id)) db).
Proof.
  intros Hr. unfold delete_boxer, bind, get, put.
  rewrite select_id_find_row, Hr. reflexivity.
Qed.

Lemma delete_boxer_absent (boxer_id : Z) (db : Table) :
  find_row boxer_id db = None ->
  delete_boxer boxer_id db
  = (Raise (ValueError ("Boxer with ID " ++ str_of_int boxer_id
                        ++ " not found.")), db).
Proof.
  intros Hr. unfold delete_boxer, bind, get, raise.
  rewrite select_id_find_row, Hr. reflexivity.
Qed.

Lemma find_row_filter_same (boxer_id : Z) (db : Table) :
  find_row boxer_id (filter (fun r => negb (row_id r =? boxer_id)) db) = None.
Proof.
  unfold find_row. induction db as [|r db IH]; simpl; [reflexivity|].
  destruct (row_id r =? boxer_id) eqn:E; simpl; [exact IH|].
  rewrite E. exact IH.
Qed.

Lemma find_row_filter_other (boxer_id j : Z) (db : Table) :
  j <> boxer_id ->
  find_row j (filter (fun r => negb (row_id r =? boxer_id)) db)
  = find_row j db.
Proof.
  intros Hj. unfold find_row.
  induction db as [|r db IH]; simpl; [reflexivity|].
  destruct (row_id r =? boxer_id) eqn:E; simpl.
  - apply Z.eqb_eq in E.
    assert ((row_id r =? j) = false) as -> by (apply Z.eqb_neq; lia).
    exact IH.
  - destruct (row_id r =? j); [reflexivity | exact IH].
Qed.

Lemma filter_absent (boxer_id : Z) (db : Table) :
  find_row boxer_id db = None ->
  filter (fun r => negb (row_id r =? boxer_id)) db = db.
Proof.
  unfold find_row. induction db as [|r db IH]; simpl; [reflexivity|].
  destruct (row_id r =? boxer_id); [discriminate|].
  intros H. simpl. rewrite (IH H). reflexivity.
Qed.

(** X6. [delete_boxer] on an id that is not stored raises the not-found
    [ValueError] and leaves the table as it is.  On a stored id it returns,
    after which [get_boxer_by_id] raises not-found for that id, a second
    [delete_boxer] raises not-found as well, and the rows stored under the
    other ids are as before. *)
Theorem delete_boxer_spec (boxer_id : Z) (db : Table) :
  (find_row boxer_id db = None ->
   delete_boxer boxer_id db
   = (Raise (ValueError ("Boxer with ID " ++ str_of_int boxer_id
                         ++ " not found.")), db)) /\
  (forall r, find_row boxer_id db = Some r ->
   exists db',
     delete_boxer boxer_id db = (Ok tt, db') /\
     get_boxer_by_id boxer_id db'
     = Raise (ValueError ("Boxer with ID " ++ str_of_int boxer_id
                          ++ " not found.")) /\
     delete_boxer boxer_id db'
     = (Raise (ValueError ("Boxer with ID " ++ str_of_int boxer_id
                           ++ " not found.")), db') /\
     forall j, j <> boxer_id -> find_row j db' = find_row j db).
Proof.
  split; [apply delete_boxer_absent|].
  intros r Hr. eexists. split; [apply (delete_boxer_stored _ _ r Hr)|].
  pose proof (find_row_filter_same boxer_id db) as Hgone.
  split; [|split].
  - unfold get_boxer_by_id. unfold find_row in Hgone. rewrite Hgone.
    reflexivity.
  - apply delete_boxer_absent, Hgone.
  - intros j Hj. apply find_row_filter_other, Hj.
Qed.

(** X7. Deleting the boxer that [create_boxer] has just stored gives the
    table back, when the id the database assigned was not stored before. *)
Theorem create_then_delete (name : string) (weight height : Z) (reach : Q)
    (age : Z) (db : Table) :
  creatable name weight height reach age db ->
  find_row (assign_id db) db = None ->
  delete_boxer (assign_id db)
    (snd (create_boxer assign_id str_of_float name weight height reach age db))
  = (Ok tt, db).
Proof.
  intros Hc Hid. rewrite (create_boxer_creatable _ _ _ _ _ _ Hc). cbn [snd].
  rewrite (delete_boxer_stored _ _
             (mkRow (assign_id db) name weight height reach age 0 0)).
  - rewrite filter_app, (filter_absent _ _ Hid). simpl.
    rewrite Z.eqb_refl. simpl. rewrite app_nil_r. reflexivity.
  - unfold find_row in *. rewrite find_snoc, Hid. cbn [row_id].
    rewrite Z.eqb_refl. reflexivity.
Qed.

(** *** Lookup *)

Lemma find_some_holds {A : Type} (p : A -> bool) (l : list A) (x : A) :
  find p l = Some x -> p x = true.
Proof. intros H. apply (find_some _ _ H). Qed.

Lemma new_Boxer_cases (id : Z) (name : string) (weight height : Z)
    (reach : Q) (age : Z) :
  match new_Boxer id name weight height reach age with
  | Ok b =>
      b = Boxer.mk id name weight height reach age (Boxer.weight_class b) /\
      get_weight_class weight = Ok (Boxer.weight_class b)
  | Raise e => weight < 125
  end.
Proof.
  unfold new_Boxer.
  destruct (get_weight_class weight) as [wc|e] eqn:Hwc;
    [split; reflexivity|].
  destruct (Z.lt_ge_cases weight 125) as [H|H]; [exact H|].
  destruct (get_weight_class_ok weight) as (wc & Hwc'); [lia|].
  rewrite Hwc in Hwc'. discriminate Hwc'.
Qed.

(** X8. What [get_boxer_by_id] and [get_boxer_by_name] return is the stored
    row they were asked for: a boxer with that id (that name), the columns
    of its row, and the weight class of its weight.  They raise only when
    no such row is stored or when the stored weight is below 125. *)
Theorem lookup_spec (db : Table) :
  (forall boxer_id,
     match get_boxer_by_id boxer_id db with
     | Ok b =>
         Boxer.id b = boxer_id /\
         exists r, find_row boxer_id db = Some r /\ profile_of r b
     | Raise e =>
         find_row boxer_id db = None
         \/ exists r, find_row boxer_id db = Some r /\ row_weight r < 125
     end) /\
  (forall boxer_name,
     match get_boxer_by_name boxer_name db with
     | Ok b =>
         Boxer.name b = boxer_name /\
         exists r, find_name boxer_name db = Some r /\ profile_of r b
     | Raise e =>
         find_name boxer_name db = None
         \/ exists r, find_name boxer_name db = Some r /\ row_weight r < 125
     end).
Proof.
  split.
  - intros boxer_id. unfold get_boxer_by_id, find_row.
    destruct (find (fun r => row_id r =? boxer_id) db) as [r|] eqn:Hr;
      [|left; reflexivity].
    pose proof (find_some_holds _ _ _ Hr) as Hid. apply Z.eqb_eq in Hid.
    pose proof (new_Boxer_cases (row_id r) (row_name r) (row_weight r)
                  (row_height r) (row_reach r) (row_age r)) as Hb.
    destruct (new_Boxer (row_id r) (row_name r) (row_weight r)
                (row_height r) (row_reach r) (row_age r)) as [b|e].
    + split; [destruct Hb as [-> _]; exact Hid|].
      exists r. split; [reflexivity | exact Hb].
    + right. exists r. split; [reflexivity | exact Hb].
  - intros boxer_name. unfold get_boxer_by_name, find_name.
    destruct (find (fun r => (row_name r =? boxer_name)%string) db)
      as [r|] eqn:Hr; [|left; reflexivity].
    pose proof (find_some_holds _ _ _ Hr) as Hn. apply String.eqb_eq in Hn.
    pose proof (new_Boxer_cases (row_id r) (row_name r) (row_weight r)
                  (row_height r) (row_reach r) (row_age r)) as Hb.
    destruct (new_Boxer (row_id r) (row_name r) (row_weight r)
                (row_height r) (row_reach r) (row_age r)) as [b|e].
    + split; [destruct Hb as [-> _]; exact Hn|].
      exists r. split; [reflexivity | exact Hb].
    + right. exists r. split; [reflexivity | exact Hb].
Qed.

(** *** Stat updates and profiles *)

(** The table after [update_boxer_stats]: as before, or with the win, or
    with the loss. *)
Lemma update_boxer_stats_table (boxer_id : Z) (outcome : string) (db : Table) :
  snd (update_boxer_stats boxer_id outcome db) = db
  \/ snd (update_boxer_stats boxer_id outcome db)
     = update_where_id boxer_id set_win db
  \/ snd (update_boxer_stats boxer_id outcome db)
     = update_where_id boxer_id set_loss db.
Proof.
  unfold update_boxer_stats.
  destruct (negb ((outcome =? "win")%string || (outcome =? "loss")%string));
    [left; reflexivity|].
  unfold bind, get, put, raise.
  destruct (select_id boxer_id db); [|left; reflexivity].
  destruct (outcome =? "win")%string; [right; left | right; right];
    reflexivity.
Qed.

Lemma find_map_same {A : Type} (p : A -> bool) (f : A -> A) (l : list A) :
  (forall x, p (f x) = p x) ->
  find p (map f l) = option_map f (find p l).
Proof.
  intros Hp. induction l as [|x l IH]; simpl; [reflexivity|].
  rewrite Hp. destruct (p x); [reflexivity | exact IH].
Qed.

Lemma lookups_after_update (boxer_id : Z) (set : Row -> Row) (db : Table) :
  (forall r, row_id (set r) = row_id r /\ row_name (set r) = row_name r /\
             row_weight (set r) = row_weight r /\
             row_height (set r) = row_height r /\
             row_reach (set r) = row_reach r /\ row_age (set r) = row_age r) ->
  (forall j, get_boxer_by_id j (update_where_id boxer_id set db)
             = get_boxer_by_id j db) /\
  (forall n, get_boxer_by_name n (update_where_id boxer_id set db)
             = get_boxer_by_name n db).
Proof.
  intros Hset. unfold update_where_id, get_boxer_by_id, get_boxer_by_name.
  split; intros k; rewrite find_map_same.
  - destruct (find (fun r => row_id r =? k) db) as [r|]; [|reflexivity].
    simpl. destruct (row_id r =? boxer_id); [|reflexivity].
    destruct (Hset r) as (-> & -> & -> & -> & -> & ->). reflexivity.
  - intros r. destruct (row_id r =? boxer_id); [|reflexivity].
    destruct (Hset r) as (-> & _). reflexivity.
  - destruct (find (fun r => (row_name r =? k)%string) db) as [r|];
      [|reflexivity].
    simpl. destruct (row_id r =? boxer_id); [|reflexivity].
    destruct (Hset r) as (-> & -> & -> & -> & -> & ->). reflexivity.
  - intros r. destruct (row_id r =? boxer_id); [|reflexivity].
    destruct (Hset r) as (_ & -> & _). reflexivity.
Qed.

(** X9. Recording a result never changes a profile: after
    [update_boxer_stats], for any id and outcome and whether it returned or
    raised, [get_boxer_by_id] and [get_boxer_by_name] return what they
    returned before. *)
Theorem update_keeps_profiles (boxer_id : Z) (outcome : string) (db : Table) :
  (forall j,
     get_boxer_by_id j (snd (update_boxer_stats boxer_id outcome db))
     = get_boxer_by_id j db) /\
  (forall n,
     get_boxer_by_name n (snd (update_boxer_stats boxer_id outcome db))
     = get_boxer_by_name n db).
Proof.
  destruct (update_boxer_stats_table boxer_id outcome db) as [-> | [-> | ->]].
  - split; reflexivity.
  - apply lookups_after_update. intros r. repeat split.
  - apply lookups_after_update. intros r. repeat split.
Qed.

(** *** What a session keeps true *)

Lemma find_name_none_not_in (name : string) (db : Table) :
  find_name name db = None -> ~ In name (map row_name db).
Proof.
  unfold find_name. induction db as [|r db IH]; simpl; [tauto|].
  destruct (row_name r =? name)%string eqn:E; [discriminate|].
  apply String.eqb_neq in E. intros H [Hr | Hin]; [exact (E Hr)|].
  exact (IH H Hin).
Qed.

Lemma filter_keeps_distinct {K : Type} (key : Row -> K) (keep : Row -> bool)
    (db : Table) :
  NoDup (map key db) -> NoDup (map key (filter keep db)).
Proof.
  intros Hdb. induction db as [|r db IH]; simpl; [constructor|].
  simpl in Hdb. apply NoDup_cons_iff in Hdb as [Hr Hdb].
  destruct (keep r); simpl; [|exact (IH Hdb)].
  apply NoDup_cons_iff. split; [|exact (IH Hdb)].
  rewrite in_map_iff. intros (r' & Hkey & Hin).
  apply filter_In in Hin as [Hin _].
  apply Hr. rewrite <- Hkey. apply in_map, Hin.
Qed.

Lemma update_where_id_names (boxer_id : Z) (set : Row -> Row) (db : Table) :
  (forall r, row_name (set r) = row_name r) ->
  map row_name (update_where_id boxer_id set db) = map row_name db.
Proof.
  intros Hset. unfold update_where_id. rewrite map_map.
  apply map_ext. intros r. destruct (row_id r =? boxer_id); [apply Hset|].
  reflexivity.
Qed.

Lemma update_where_id_valid (boxer_id : Z) (set : Row -> Row) (db : Table) :
  (forall r, row_valid r -> row_valid (set r)) ->
  Forall row_valid db -> Forall row_valid (update_where_id boxer_id set db).
Proof.
  intros Hset Hdb. unfold update_where_id. apply Forall_map.
  eapply Forall_impl; [|exact Hdb]. intros r Hr. simpl.
  destruct (row_id r =? boxer_id); [apply Hset, Hr | exact Hr].
Qed.

Lemma run_repo_call_valid (c : repo_call) (db : Table) :
  db_valid db -> db_valid (run_repo_call assign_id str_of_float c db).
Proof.
  intros [Hrows Hnames].
  destruct c as [name weight height reach age | boxer_id | boxer_id outcome];
    simpl.
  - destruct (create_boxer_table name weight height reach age db)
      as [[Hc ->] | ->]; [|split; assumption].
    destruct Hc as (Hw & Hh & Hr & Ha & Hn). split.
    + apply Forall_app. split; [exact Hrows|].
      constructor; [|constructor].
      unfold row_valid. simpl. repeat split; assumption || lia.
    + rewrite map_app. simpl.
      apply NoDup_app; [exact Hnames | constructor; [intros []|constructor]|].
      intros n Hin [<- | []]. exact (find_name_none_not_in _ _ Hn Hin).
  - unfold delete_boxer, bind, get, put, raise.
    destruct (select_id boxer_id db); [|split; assumption].
    simpl. split.
    + apply Forall_forall. intros r Hr. apply filter_In in Hr.
      rewrite Forall_forall in Hrows. apply Hrows, Hr.
    + apply filter_keeps_distinct, Hnames.
  - destruct (update_boxer_stats_table boxer_id outcome db)
      as [-> | [-> | ->]]; [split; assumption | |].
    + split.
      * apply update_where_id_valid; [|exact Hrows].
        intros r (Hw & Hh & Hr & Ha & Hf).
        unfold row_valid. simpl. repeat split; assumption || lia.
      * rewrite update_where_id_names by reflexivity. exact Hnames.
    + split.
      * apply update_where_id_valid; [|exact Hrows].
        intros r (Hw & Hh & Hr & Ha & Hf).
        unfold row_valid. simpl. repeat split; assumption || lia.
      * rewrite update_where_id_names by reflexivity. exact Hnames.
Qed.

Lemma run_repo_calls_valid (cs : list repo_call) (db : Table) :
  db_valid db -> db_valid (run_repo_calls assign_id str_of_float cs db).
Proof.
  revert db. induction cs as [|c cs IH]; intros db Hdb; simpl; [exact Hdb|].
  apply IH, run_repo_call_valid, Hdb.
Qed.

(** X10. Whatever [create_boxer], [delete_boxer] and [update_boxer_stats]
    calls are made on an empty table, and whichever of them raise, every
    stored boxer weighs at least 125, has a positive height and reach, an
    age between 18 and 40 and no more wins than fights, and no two stored
    boxers have the same name. *)
Theorem repo_session_valid (cs : list repo_call) :
  db_valid (run_repo_calls assign_id str_of_float cs []).
Proof.
  apply run_repo_calls_valid. split; constructor.
Qed.

(** *** The leaderboard of a valid table *)

Lemma sql_win_pct_bounds (r : Row) :
  row_valid r -> 0 < row_fights r -> (0 <= sql_win_pct r <= 1)%Q.
Proof.
  intros (_ & _ & _ & _ & Hw0 & Hwf) Hf.
  rewrite sql_win_pct_ratio.
  rewrite Zle_Qle in Hw0, Hwf. rewrite Zlt_Qlt in Hf.
  change (inject_Z 0) with 0%Q in *.
  split.
  - apply Qle_shift_div_l; [exact Hf | lra].
  - apply Qle_shift_div_r; [exact Hf | lra].
Qed.

Lemma round1_percent_bounds (x : Q) :
  (0 <= x <= 1)%Q -> (0 <= round1 (x * 100) <= 100)%Q.
Proof.
  intros [H0 H1]. split.
  - apply Qle_trans with (round1 0); [vm_compute; discriminate|].
    apply round1_mono. lra.
  - apply Qle_trans with (round1 100); [|vm_compute; discriminate].
    apply round1_mono. lra.
Qed.

Lemma leaderboard_valid (db : Table) (sorted : list QueryRow) :
  Forall row_valid db ->
  Permutation sorted (select_fought db) ->
  exists board,
    build_leaderboard sorted = Ok board /\
    length board = length (filter (fun r => row_fights r >? 0) db) /\
    Forall (fun e => (0 <= e_win_pct e <= 100)%Q) board.
Proof.
  intros Hdb Hperm.
  destruct (leaderboard_of_sorted db sorted) as (board & Hb & Hp & _ & Hkeys);
    [|exact Hperm|].
  { eapply Forall_impl; [|exact Hdb]. intros r Hr. apply Hr. }
  exists board. split; [exact Hb|]. split.
  - rewrite <- (Permutation_length Hp), length_map.
    symmetry. eapply Forall2_length, Hkeys.
  - assert (Forall (fun row => (0 <= snd row <= 1)%Q) sorted) as Hrows.
    { eapply Permutation_Forall; [apply Permutation_sym, Hperm|].
      unfold select_fought. apply Forall_map. apply Forall_forall.
      intros r Hr. apply filter_In in Hr as [Hin Hf]. simpl.
      rewrite Forall_forall in Hdb.
      apply sql_win_pct_bounds; [apply Hdb, Hin|].
      apply Z.gtb_lt in Hf. exact Hf. }
    clear Hb Hp Hperm. induction Hkeys as [|row e rows board He _ IH].
    + constructor.
    + inversion Hrows; subst. constructor; [|apply IH; assumption].
      destruct He as (_ & -> & _). apply round1_percent_bounds. assumption.
Qed.

(** X11. On the table of any session of repository calls from an empty
    table, [get_leaderboard] returns for both sort keys; the board has one
    entry for each stored boxer with a fight, and every [win_pct] on it
    lies between 0 and 100. *)
Theorem repo_session_leaderboard (cs : list repo_call) (sort_by : string) :
  let db := run_repo_calls assign_id str_of_float cs [] in
  if ((sort_by =? "wins") || (sort_by =? "win_pct"))%string then
    exists board,
      get_leaderboard sort_by db = Ok board /\
      length board = length (filter (fun r => row_fights r >? 0) db) /\
      Forall (fun e => (0 <= e_win_pct e <= 100)%Q) board
  else
    get_leaderboard sort_by db
    = Raise (ValueError ("Invalid sort_by parameter: " ++ sort_by)).
Proof.
  intros db.
  pose proof (run_repo_calls_valid cs [] (conj (Forall_nil _) (NoDup_nil _)))
    as [Hdb _].
  fold db in Hdb.
  unfold get_leaderboard.
  destruct (sort_by =? "win_pct")%string eqn:Epct.
  - rewrite orb_true_r. apply leaderboard_valid; [exact Hdb|].
    apply order_by_desc_perm.
  - rewrite orb_false_r. destruct (sort_by =? "wins")%string; [|reflexivity].
    apply leaderboard_valid; [exact Hdb|]. apply order_by_desc_perm.
Qed.

(** *** Ids *)

Lemma NoDup_find_unique {A K : Type} (key : A -> K) (eqb : K -> K -> bool)
    (l : list A) (x : A) :
  (forall a b, eqb a b = true <-> a = b) ->
  NoDup (map key l) -> In x l ->
  find (fun y => eqb (key y) (key x)) l = Some x.
Proof.
  intros Heqb. induction l as [|y l IH]; simpl; [intros _ []|].
  intros Hnd Hin. inversion Hnd as [|? ? Hy Hl]; subst.
  destruct Hin as [-> | Hin].
  - assert (eqb (key x) (key x) = true) as -> by (apply Heqb; reflexivity).
    reflexivity.
  - destruct (eqb (key y) (key x)) eqn:E; [|apply IH; assumption].
    exfalso. apply Hy. apply Heqb in E. rewrite E. apply in_map, Hin.
Qed.

Section FreshIds.

(** The database assigns an id that is not stored. *)
Hypothesis assign_id_fresh : forall db, find_row (assign_id db) db = None.

Lemma find_row_none_not_in (boxer_id : Z) (db : Table) :
  find_row boxer_id db = None -> ~ In boxer_id (map row_id db).
Proof.
  unfold find_row. induction db as [|r db IH]; simpl; [tauto|].
  destruct (row_id r =? boxer_id) eqn:E; [discriminate|].
  apply Z.eqb_neq in E. intros H [Hr | Hin]; [exact (E Hr)|].
  exact (IH H Hin).
Qed.

Lemma run_repo_call_ids (c : repo_call) (db : Table) :
  NoDup (map row_id db) ->
  NoDup (map row_id (run_repo_call assign_id str_of_float c db)).
Proof.
  intros Hids.
  destruct c as [name weight height reach age | boxer_id | boxer_id outcome];
    simpl.
  - destruct (create_boxer_table name weight height reach age db)
      as [[_ ->] | ->]; [|exact Hids].
    rewrite map_app. simpl.
    apply NoDup_app; [exact Hids | constructor; [intros []|constructor]|].
    intros j Hin [<- | []].
    exact (find_row_none_not_in _ _ (assign_id_fresh db) Hin).
  - unfold delete_boxer, bind, get, put, raise.
    destruct (select_id boxer_id db); [|exact Hids].
    simpl. apply filter_keeps_distinct, Hids.
  - destruct (update_boxer_stats_table boxer_id outcome db)
      as [-> | [-> | ->]]; [exact Hids | |];
      unfold update_where_id; rewrite map_map;
      (erewrite map_ext; [exact Hids|]);
      intros r; simpl; destruct (row_id r =? boxer_id); reflexivity.
Qed.

Lemma run_repo_calls_ids (cs : list repo_call) (db : Table) :
  NoDup (map row_id db) ->
  NoDup (map row_id (run_repo_calls assign_id str_of_float cs db)).
Proof.
  revert db. induction cs as [|c cs IH]; intros db H; simpl; [exact H|].
  apply IH, run_repo_call_ids, H.
Qed.

(** X12. When the database assigns ids that are not stored, no two boxers
    of a session's table have the same id, and every stored row is the one
    found under its id and the one found under its name. *)
Theorem repo_session_lookup (cs : list repo_call) :
  let db := run_repo_calls assign_id str_of_float cs [] in
  NoDup (map row_id db) /\
  forall r, In r db ->
            find_row (row_id r) db = Some r /\
            find_name (row_name r) db = Some r.
Proof.
  intros db.
  pose proof (run_repo_calls_ids cs [] (NoDup_nil _)) as Hids.
  fold db in Hids.
  pose proof (run_repo_calls_valid cs [] (conj (Forall_nil _) (NoDup_nil _)))
    as [_ Hnames].
  fold db in Hnames.
  split; [exact Hids|]. intros r Hr. split.
  - apply (NoDup_find_unique row_id Z.eqb); [apply Z.eqb_eq | exact Hids | exact Hr].
  - apply (NoDup_find_unique row_name String.eqb);
      [apply String.eqb_eq | exact Hnames | exact Hr].
Qed.

End FreshIds.

End Crud.

(** *** The theorems on concrete tables *)

Lemma next_rowid_bound (db : Table) (r : Row) :
  In r db -> row_id r < next_rowid db.
Proof.
  unfold next_rowid. induction db as [|x db IH]; [intros []|].
  cbn [map fold_right In].
  intros [-> | Hin]; [lia|]. specialize (IH Hin). lia.
Qed.

Lemma next_rowid_fresh (db : Table) : find_row (next_rowid db) db = None.
Proof.
  unfold find_row.
  destruct (find (fun r => row_id r =? next_rowid db) db) as [r|] eqn:E;
    [|reflexivity].
  apply find_some in E as [Hin Hid]. apply Z.eqb_eq in Hid.
  pose proof (next_rowid_bound db r Hin). lia.
Qed.

(** X2 on a table that stores Ali: another Ali with valid arguments is
    refused as a duplicate. *)
Lemma create_boxer_duplicate_witness :
  let db := [mkRow 1 "Ali" 200 70 74 28 10 8] in
  find_name "Ali" db = Some (mkRow 1 "Ali" 200 70 74 28 10 8) /\
  create_boxer next_rowid str_of_whole_float "Ali" 150 65 70 30 db
  = (Raise (ValueError "Boxer with name 'Ali' already exists"), db).
Proof.
  intros db. split; [reflexivity|].
  destruct (create_boxer_duplicate next_rowid str_of_whole_float
              "Ali" 150 65 70 30 db (mkRow 1 "Ali" 200 70 74 28 10 8) eq_refl)
    as (msg & Hmsg & Hexists).
  rewrite Hmsg, Hexists; [reflexivity | lia | lia | reflexivity | lia].
Defined.

(** X3 for the boxer of the creation test, on an empty table. *)
Lemma create_then_get_witness :
  creatable "Mike Tyson" 220 71 71 25 [] /\
  get_boxer_by_name "Mike Tyson"
    (snd (create_boxer next_rowid str_of_whole_float
            "Mike Tyson" 220 71 71 25 []))
  = Ok (Boxer.mk 1 "Mike Tyson" 220 71 71 25 "HEAVYWEIGHT") /\
  get_boxer_by_id 1
    (snd (create_boxer next_rowid str_of_whole_float
            "Mike Tyson" 220 71 71 25 []))
  = Ok (Boxer.mk 1 "Mike Tyson" 220 71 71 25 "HEAVYWEIGHT").
Proof.
  assert (creatable "Mike Tyson" 220 71 71 25 []) as Hc
    by (unfold creatable; repeat split; try lia; reflexivity).
  split; [exact Hc|].
  destruct (create_then_get next_rowid str_of_whole_float
              "Mike Tyson" 220 71 71 25 [] Hc) as (wc & Hwc & Hname & Hid).
  vm_compute in Hwc. injection Hwc as <-.
  split; [exact Hname | exact (Hid eq_refl)].
Defined.

(** X7 for the same boxer, created on the gym and deleted again. *)
Lemma create_then_delete_witness :
  creatable "Mike Tyson" 220 71 71 25 gym /\
  find_row (next_rowid gym) gym = None /\
  delete_boxer 3
    (snd (create_boxer next_rowid str_of_whole_float
            "Mike Tyson" 220 71 71 25 gym))
  = (Ok tt, gym).
Proof.
  assert (creatable "Mike Tyson" 220 71 71 25 gym) as Hc
    by (unfold creatable; repeat split; try lia; reflexivity).
  split; [exact Hc|]. split; [reflexivity|].
  exact (create_then_delete next_rowid str_of_whole_float
           "Mike Tyson" 220 71 71 25 gym Hc eq_refl).
Defined.

(** X12 on a session that creates three boxers, records a win, refuses a
    duplicate and deletes the first boxer. *)
Lemma repo_session_lookup_witness :
  let db := run_repo_calls next_rowid str_of_whole_float
              [RepoCreate "Ali" 200 70 74 28;
               RepoCreate "Tyson" 220 71 71 25;
               RepoUpdate 2 "win";
               RepoCreate "Ali" 150 65 70 30;
               RepoCreate "Rocky" 190 70 72 28;
               RepoDelete 1] [] in
  (forall db0, find_row (next_rowid db0) db0 = None) /\
  map row_id db = [2; 3] /\
  NoDup (map row_id db) /\
  find_name "Tyson" db = Some (mkRow 2 "Tyson" 220 71 71 25 1 1).
Proof.
  intros db. split; [exact next_rowid_fresh|]. split; [reflexivity|].
  destruct (repo_session_lookup next_rowid str_of_whole_float
              next_rowid_fresh
              [RepoCreate "Ali" 200 70 74 28;
               RepoCreate "Tyson" 220 71 71 25;
               RepoUpdate 2 "win";
               RepoCreate "Ali" 150 65 70 30;
               RepoCreate "Rocky" 190 70 72 28;
               RepoDelete 1]) as [Hids Hfind].
  split; [exact Hids|].
  apply (Hfind (mkRow 2 "Tyson" 220 71 71 25 1 1)).
  left. reflexivity.
Defined.

(* ================================================================= *)
(** ** More of the ring and of the fight engine *)

Section MoreRing.

Variable py_float : string -> option Q.

Lemma win_probability_bounds (a b : Boxer.t) :
  (1 / 2 <= win_probability a b < 1)%R.
Proof. apply logistic_bounds, Rabs_pos. Qed.

Lemma win_probability_sym (a b : Boxer.t) :
  win_probability a b = win_probability b a.
Proof. unfold win_probability. rewrite Rabs_minus_sym. reflexivity. Qed.

(** [fight] on a ring of two when the draw is below one half: the first
    boxer is the winner. *)
Lemma fight_low_draw (boxer_1 boxer_2 : Boxer.t) (db : Table)
    (net : http_outcome) (r : Q) :
  get_random py_float net = Ok r ->
  (r < 1 # 2)%Q ->
  fight py_float net (mkWorld [boxer_1; boxer_2] db)
  = match update_boxer_stats (Boxer.id boxer_1) "win" db with
    | (Raise e, db1) => (Raise e, mkWorld [boxer_1; boxer_2] db1)
    | (Ok _, db1) =>
        match update_boxer_stats (Boxer.id boxer_2) "loss" db1 with
        | (Raise e, db2) => (Raise e, mkWorld [boxer_1; boxer_2] db2)
        | (Ok _, db2) => (Ok (Boxer.name boxer_1), mkWorld [] db2)
        end
    end.
Proof.
  intros Hnet Hr. rewrite fight_ready, Hnet.
  destruct (Rlt_dec (Q2R r) (win_probability boxer_1 boxer_2)) as [_|Hge];
    [reflexivity|].
  exfalso. apply Hge. apply Qlt_Rlt in Hr.
  replace (Q2R (1 # 2)) with (1 / 2)%R in Hr by (unfold Q2R; simpl; lra).
  pose proof (win_probability_bounds boxer_1 boxer_2). lra.
Qed.

(** X13. The win probability is the same whichever of the two boxers
    entered first, and it is at least one half.  So with both boxers
    stored, a draw below one half makes the boxer who entered first the
    winner, whatever the skills: [fight] returns that boxer's name and
    empties the ring. *)
Theorem first_boxer_favoured (boxer_1 boxer_2 : Boxer.t) (db : Table)
    (row_1 row_2 : Row) (net : http_outcome) (r : Q) :
  find_row (Boxer.id boxer_1) db = Some row_1 ->
  find_row (Boxer.id boxer_2) db = Some row_2 ->
  get_random py_float net = Ok r ->
  (r < 1 # 2)%Q ->
  win_probability boxer_1 boxer_2 = win_probability boxer_2 boxer_1 /\
  (1 / 2 <= win_probability boxer_1 boxer_2)%R /\
  exists db',
    fight py_float net (mkWorld [boxer_1; boxer_2] db)
    = (Ok (Boxer.name boxer_1), mkWorld [] db').
Proof.
  intros H1 H2 Hnet Hr.
  split; [apply win_probability_sym|].
  split; [apply (proj1 (win_probability_bounds boxer_1 boxer_2))|].
  rewrite (fight_low_draw _ _ _ _ _ Hnet Hr).
  rewrite (update_win_stored _ _ _ H1).
  assert (exists row, find_row (Boxer.id boxer_2)
                        (update_where_id (Boxer.id boxer_1) set_win db)
                      = Some row) as (row & Hrow).
  { destruct (Z.eq_dec (Boxer.id boxer_2) (Boxer.id boxer_1)) as [E|E].
    - rewrite E, find_row_update_same, H1 by reflexivity.
      eexists. reflexivity.
    - rewrite find_row_update_other by (assumption || reflexivity).
      eexists. exact H2. }
  rewrite (update_loss_stored _ _ _ Hrow). eexists. reflexivity.
Qed.

(** X14. The two stat updates of [fight] are not one transaction.  With
    a draw below one half: when the first boxer is stored and the second is
    not, [fight] raises the not-found [ValueError] for the second, the win
    of the first is already recorded and the ring still holds both; when
    the first boxer is not stored, [fight] raises not-found for the first
    and nothing at all has changed. *)
Theorem fight_partial_update (boxer_1 boxer_2 : Boxer.t) (db : Table)
    (net : http_outcome) (r : Q) :
  get_random py_float net = Ok r ->
  (r < 1 # 2)%Q ->
  (forall row_1,
     find_row (Boxer.id boxer_1) db = Some row_1 ->
     find_row (Boxer.id boxer_2) db = None ->
     fight py_float net (mkWorld [boxer_1; boxer_2] db)
     = (Raise (ValueError ("Boxer with ID " ++ str_of_int (Boxer.id boxer_2)
                           ++ " not found.")),
        mkWorld [boxer_1; boxer_2]
                (update_where_id (Boxer.id boxer_1) set_win db)) /\
     find_row (Boxer.id boxer_1)
              (update_where_id (Boxer.id boxer_1) set_win db)
     = Some (set_win row_1)) /\
  (find_row (Boxer.id boxer_1) db = None ->
   fight py_float net (mkWorld [boxer_1; boxer_2] db)
   = (Raise (ValueError ("Boxer with ID " ++ str_of_int (Boxer.id boxer_1)
                         ++ " not found.")),
      mkWorld [boxer_1; boxer_2] db)).
Proof.
  intros Hnet Hr. rewrite (fight_low_draw _ _ _ _ _ Hnet Hr). split.
  - intros row_1 H1 H2. rewrite (update_win_stored _ _ _ H1).
    assert (Boxer.id boxer_2 <> Boxer.id boxer_1) as Hne
      by (intros E; rewrite E, H1 in H2; discriminate H2).
    rewrite update_absent;
      [| rewrite find_row_update_other by (assumption || reflexivity);
         exact H2
       | right; reflexivity].
    split; [reflexivity|].
    rewrite find_row_update_same, H1 by reflexivity. reflexivity.
  - intros H1. rewrite update_absent; [reflexivity | exact H1 |].
    left. reflexivity.
Qed.

(** *** What a fight leaves alone *)

(** What [update_boxer_stats] leaves alone, whether it returns or raises:
    the ids in the table, the rows under other ids, every profile. *)
Lemma update_boxer_stats_frame (boxer_id : Z) (outcome : string) (db : Table) :
  let db' := snd (update_boxer_stats boxer_id outcome db) in
  map row_id db' = map row_id db /\
  (forall j, j <> boxer_id -> find_row j db' = find_row j db) /\
  (forall j, get_boxer_by_id j db' = get_boxer_by_id j db) /\
  (forall n, get_boxer_by_name n db' = get_boxer_by_name n db).
Proof.
  intros db'. subst db'.
  assert (forall set : Row -> Row,
            (forall r, row_id (set r) = row_id r) ->
            map row_id (update_where_id boxer_id set db) = map row_id db)
    as Hids.
  { intros set Hset. unfold update_where_id. rewrite map_map.
    apply map_ext. intros r. destruct (row_id r =? boxer_id); [apply Hset|].
    reflexivity. }
  destruct (update_boxer_stats_table boxer_id outcome db) as [-> | [-> | ->]].
  - repeat split; reflexivity.
  - split; [apply Hids; reflexivity|]. split.
    + intros j Hj. apply find_row_update_other; [exact Hj | reflexivity].
    + apply lookups_after_update. intros r. repeat split.
  - split; [apply Hids; reflexivity|]. split.
    + intros j Hj. apply find_row_update_other; [exact Hj | reflexivity].
    + apply lookups_after_update. intros r. repeat split.
Qed.

(** The table after [fight] on a ring of two: the two stat updates, each
    of which may have raised, or the table as it was. *)
Lemma fight_table (boxer_1 boxer_2 : Boxer.t) (db0 : Table)
    (net : http_outcome) :
  db (snd (fight py_float net (mkWorld [boxer_1; boxer_2] db0))) = db0
  \/ exists i o, (i = Boxer.id boxer_1 \/ i = Boxer.id boxer_2) /\
       (db (snd (fight py_float net (mkWorld [boxer_1; boxer_2] db0)))
        = snd (update_boxer_stats i o db0)
        \/ exists i' o', (i' = Boxer.id boxer_1 \/ i' = Boxer.id boxer_2) /\
             db (snd (fight py_float net (mkWorld [boxer_1; boxer_2] db0)))
             = snd (update_boxer_stats i' o'
                      (snd (update_boxer_stats i o db0)))).
Proof.
  rewrite fight_ready.
  destruct (get_random py_float net) as [r|e]; [|left; reflexivity].
  destruct (Rlt_dec (Q2R r) (win_probability boxer_1 boxer_2)) as [Hlt|Hge].
  - right. exists (Boxer.id boxer_1), "win". split; [left; reflexivity|].
    destruct (update_boxer_stats (Boxer.id boxer_1) "win" db0)
      as [[[]|e1] db1]; [|left; reflexivity].
    right. exists (Boxer.id boxer_2), "loss". split; [right; reflexivity|].
    cbn [snd].
    destruct (update_boxer_stats (Boxer.id boxer_2) "loss" db1)
      as [[[]|e2] db2]; reflexivity.
  - right. exists (Boxer.id boxer_2), "win". split; [right; reflexivity|].
    destruct (update_boxer_stats (Boxer.id boxer_2) "win" db0)
      as [[[]|e1] db1]; [|left; reflexivity].
    right. exists (Boxer.id boxer_1), "loss". split; [left; reflexivity|].
    cbn [snd].
    destruct (update_boxer_stats (Boxer.id boxer_1) "loss" db1)
      as [[[]|e2] db2]; reflexivity.
Qed.

(** X15. Whatever happens in [fight] on a ring of two, whether it returns
    or raises: no boxer is added to or removed from the table, the rows of
    boxers other than the two in the ring are as before, and
    [get_boxer_by_id] and [get_boxer_by_name] return what they returned
    before for every id and name. *)
Theorem fight_frame (boxer_1 boxer_2 : Boxer.t) (db0 : Table)
    (net : http_outcome) :
  let db' := db (snd (fight py_float net (mkWorld [boxer_1; boxer_2] db0))) in
  map row_id db' = map row_id db0 /\
  (forall j, j <> Boxer.id boxer_1 -> j <> Boxer.id boxer_2 ->
             find_row j db' = find_row j db0) /\
  (forall j, get_boxer_by_id j db' = get_boxer_by_id j db0) /\
  (forall n, get_boxer_by_name n db' = get_boxer_by_name n db0).
Proof.
  intros db'. subst db'.
  destruct (fight_table boxer_1 boxer_2 db0 net)
    as [-> | (i & o & Hi & [-> | (i' & o' & Hi' & ->)])].
  - repeat split; reflexivity.
  - destruct (update_boxer_stats_frame i o db0) as (Hids & Hrows & Hid & Hn).
    split; [exact Hids|]. split; [|split; assumption].
    intros j H1 H2. apply Hrows. destruct Hi; congruence.
  - destruct (update_boxer_stats_frame i o db0) as (Hids & Hrows & Hid & Hn).
    destruct (update_boxer_stats_frame i' o'
                (snd (update_boxer_stats i o db0)))
      as (Hids' & Hrows' & Hid' & Hn').
    split; [rewrite Hids'; exact Hids|]. split; [|split].
    + intros j H1 H2. rewrite Hrows', Hrows;
        [reflexivity | destruct Hi; congruence | destruct Hi'; congruence].
    + intros j. rewrite Hid'. apply Hid.
    + intros n. rewrite Hn'. apply Hn.
Qed.

(** *** When a fight returns *)

Lemma fight_too_many (net : http_outcome) (a b c : Boxer.t)
    (l : list Boxer.t) (db0 : Table) :
  fight py_float net (mkWorld (a :: b :: c :: l) db0)
  = (Raise (ValueError "too many values to unpack (expected 2)"),
     mkWorld (a :: b :: c :: l) db0).
Proof. reflexivity. Qed.

(** X16. When [fight] returns a name, the ring held exactly two boxers and
    the name is that of one of them; the ring is empty afterwards, and a
    second [fight] straight away raises the two-boxers [ValueError]. *)
Theorem fight_returns (net : http_outcome) (w w' : World) (name : string) :
  fight py_float net w = (Ok name, w') ->
  exists boxer_1 boxer_2,
    ring w = [boxer_1; boxer_2] /\
    (name = Boxer.name boxer_1 \/ name = Boxer.name boxer_2) /\
    ring w' = [] /\
    forall net',
      fight py_float net' w'
      = (Raise (ValueError "There must be two boxers to start a fight."), w').
Proof.
  destruct w as [[|a [|b [|c l]]] db0].
  - rewrite fight_too_few by (simpl; lia). discriminate.
  - rewrite fight_too_few by (simpl; lia). discriminate.
  - rewrite fight_ready. intros H. exists a, b. split; [reflexivity|].
    assert ((name = Boxer.name a \/ name = Boxer.name b) /\ ring w' = [])
      as [Hname Hring].
    { destruct (get_random py_float net) as [r|e]; [|discriminate H].
      destruct (Rlt_dec (Q2R r) (win_probability a b)) as [Hlt|Hge].
      - destruct (update_boxer_stats (Boxer.id a) "win" db0)
          as [[[]|e1] db1]; [|discriminate H].
        destruct (update_boxer_stats (Boxer.id b) "loss" db1)
          as [[[]|e2] db2]; [|discriminate H].
        injection H as <- <-. split; [left|]; reflexivity.
      - destruct (update_boxer_stats (Boxer.id b) "win" db0)
          as [[[]|e1] db1]; [|discriminate H].
        destruct (update_boxer_stats (Boxer.id a) "loss" db1)
          as [[[]|e2] db2]; [|discriminate H].
        injection H as <- <-. split; [right|]; reflexivity. }
    split; [exact Hname|]. split; [exact Hring|].
    intros net'. apply fight_too_few. rewrite Hring. simpl. lia.
  - rewrite fight_too_many. discriminate.
Qed.

(** *** Who is in the ring *)

Lemma run_call_ring (c : ring_call) (w : World) (b : Boxer.t) :
  In b (ring (run_call py_float c w)) ->
  In b (ring w) \/ c = CallEnter (PyBoxer b).
Proof.
  destruct c as [[b0|type_name]|net|]; cbn [run_call].
  - unfold enter_ring, bind, get, put, raise.
    destruct (2 <=? length (ring w))%nat; cbn [snd ring]; intros H;
      [left; exact H|].
    apply in_app_or in H as [H | [<- | []]];
      [left; exact H | right; reflexivity].
  - intros H. left. exact H.
  - destruct (fight_ring py_float net w) as [-> | ->]; intros H;
      [left; exact H | destruct H].
  - unfold clear_ring. destruct (ring w) eqn:E; simpl; intros H;
      [rewrite E in H|]; destruct H.
Qed.

Lemma run_calls_ring (cs : list ring_call) (w : World) (b : Boxer.t) :
  In b (ring (run_calls py_float cs w)) ->
  In b (ring w) \/ In (CallEnter (PyBoxer b)) cs.
Proof.
  revert w. induction cs as [|c cs IH]; intros w; simpl; [left; assumption|].
  intros H. apply IH in H as [H | H]; [|right; right; exact H].
  apply run_call_ring in H as [H | ->]; [left; exact H|].
  right. left. reflexivity.
Qed.

(** X17. Whatever calls are made on a new ring, the boxers in it are
    boxers that an [enter_ring] call of the session was given: a fight or
    [clear_ring] never puts anyone into the ring, and a refused
    [enter_ring] neither. *)
Theorem ring_holds_entered (cs : list ring_call) (db0 : Table) :
  Forall (fun b => In (CallEnter (PyBoxer b)) cs)
         (ring (run_calls py_float cs (mkWorld [] db0))).
Proof.
  apply Forall_forall. intros b Hb.
  apply run_calls_ring in Hb as [[] | H]. exact H.
Qed.

(** *** The totals of the table *)

Lemma update_win_ok (boxer_id : Z) (db0 db1 : Table) :
  update_boxer_stats boxer_id "win" db0 = (Ok tt, db1) ->
  exists r, find_row boxer_id db0 = Some r /\
            db1 = update_where_id boxer_id set_win db0.
Proof.
  destruct (find_row boxer_id db0) as [r|] eqn:Hr.
  - rewrite (update_win_stored _ _ _ Hr). intros [= <-].
    exists r. split; reflexivity.
  - rewrite update_absent by (assumption || (left; reflexivity)).
    discriminate.
Qed.

Lemma update_loss_ok (boxer_id : Z) (db0 db1 : Table) :
  update_boxer_stats boxer_id "loss" db0 = (Ok tt, db1) ->
  exists r, find_row boxer_id db0 = Some r /\
            db1 = update_where_id boxer_id set_loss db0.
Proof.
  destruct (find_row boxer_id db0) as [r|] eqn:Hr.
  - rewrite (update_loss_stored _ _ _ Hr). intros [= <-].
    exists r. split; reflexivity.
  - rewrite update_absent by (assumption || (right; reflexivity)).
    discriminate.
Qed.

Lemma update_where_id_absent (boxer_id : Z) (set : Row -> Row) (db0 : Table) :
  ~ In boxer_id (map row_id db0) -> update_where_id boxer_id set db0 = db0.
Proof.
  unfold update_where_id. induction db0 as [|x l IH]; simpl; [reflexivity|].
  intros H. destruct (row_id x =? boxer_id) eqn:E.
  - apply Z.eqb_eq in E. exfalso. apply H. left. exact E.
  - rewrite IH; [reflexivity|]. intros Hin. apply H. right. exact Hin.
Qed.

Lemma update_where_id_ids (boxer_id : Z) (set : Row -> Row) (db0 : Table) :
  (forall r, row_id (set r) = row_id r) ->
  map row_id (update_where_id boxer_id set db0) = map row_id db0.
Proof.
  intros Hset. unfold update_where_id. rewrite map_map.
  apply map_ext. intros r. destruct (row_id r =? boxer_id); [apply Hset|].
  reflexivity.
Qed.

Lemma totals_update (boxer_id : Z) (set : Row -> Row) (dw : Z)
    (db0 : Table) (r : Row) :
  (forall r, row_fights (set r) = row_fights r + 1 /\
             row_wins (set r) = row_wins r + dw) ->
  NoDup (map row_id db0) ->
  find_row boxer_id db0 = Some r ->
  total_fights (update_where_id boxer_id set db0) = total_fights db0 + 1 /\
  total_wins (update_where_id boxer_id set db0) = total_wins db0 + dw.
Proof.
  intros Hset. unfold total_fights, total_wins, find_row.
  induction db0 as [|x l IH]; [discriminate|].
  intros Hnd Hr. inversion Hnd as [|? ? Hx Hl]; subst.
  cbn [find] in Hr. cbn [update_where_id map fold_right].
  destruct (row_id x =? boxer_id) eqn:E.
  - apply Z.eqb_eq in E. rewrite <- E in *.
    fold (update_where_id (row_id x) set l).
    rewrite (update_where_id_absent _ _ _ Hx).
    destruct (Hset x) as [-> ->]. lia.
  - fold (update_where_id boxer_id set l).
    destruct (IH Hl Hr) as [-> ->]. lia.
Qed.

(** X18. In a table without duplicate ids, a [fight] that returns has
    added exactly two fights and exactly one win to the totals of the
    table. *)
Theorem fight_totals (boxer_1 boxer_2 : Boxer.t) (db0 : Table)
    (net : http_outcome) (name : string) (w' : World) :
  NoDup (map row_id db0) ->
  fight py_float net (mkWorld [boxer_1; boxer_2] db0) = (Ok name, w') ->
  total_fights (db w') = total_fights db0 + 2 /\
  total_wins (db w') = total_wins db0 + 1.
Proof.
  intros Hnd. rewrite fight_ready.
  assert (forall i j db1 db2,
            update_boxer_stats i "win" db0 = (Ok tt, db1) ->
            update_boxer_stats j "loss" db1 = (Ok tt, db2) ->
            total_fights db2 = total_fights db0 + 2 /\
            total_wins db2 = total_wins db0 + 1) as Hboth.
  { intros i j db1 db2 H1 H2.
    apply update_win_ok in H1 as (r1 & Hr1 & ->).
    apply update_loss_ok in H2 as (r2 & Hr2 & ->).
    destruct (totals_update i set_win 1 db0 r1) as [Hf1 Hw1];
      [intros r; split; reflexivity | exact Hnd | exact Hr1 |].
    destruct (totals_update j set_loss 0 (update_where_id i set_win db0) r2)
      as [Hf2 Hw2];
      [intros r; split; simpl; lia
      | rewrite update_where_id_ids by reflexivity; exact Hnd
      | exact Hr2 |].
    lia. }
  destruct (get_random py_float net) as [r|e]; [|discriminate].
  destruct (Rlt_dec (Q2R r) (win_probability boxer_1 boxer_2)) as [Hlt|Hge].
  - destruct (update_boxer_stats (Boxer.id boxer_1) "win" db0)
      as [[[]|e1] db1] eqn:H1; [|discriminate].
    destruct (update_boxer_stats (Boxer.id boxer_2) "loss" db1)
      as [[[]|e2] db2] eqn:H2; [|discriminate].
    intros [= _ <-]. exact (Hboth _ _ _ _ H1 H2).
  - destruct (update_boxer_stats (Boxer.id boxer_2) "win" db0)
      as [[[]|e1] db1] eqn:H1; [|discriminate].
    destruct (update_boxer_stats (Boxer.id boxer_1) "loss" db1)
      as [[[]|e2] db2] eqn:H2; [|discriminate].
    intros [= _ <-]. exact (Hboth _ _ _ _ H1 H2).
Qed.

End MoreRing.

(** *** The theorems on the ring of Rocky and Creed *)

Lemma rocky_beats_creed :
  fight plain_float (ReqText "0.40") (mkWorld [Rocky; Creed] gym)
  = (Ok "Rocky",
     mkWorld [] [mkRow 1 "Rocky" 190 70 72 28 1 1;
                 mkRow 2 "Creed" 185 71 73 30 1 0]).
Proof.
  rewrite (fight_low_draw plain_float Rocky Creed gym (ReqText "0.40") 0.40%Q);
    reflexivity.
Qed.

(** X13 at the draw 0.40 of the test suite: Rocky, who entered first,
    wins. *)
Lemma first_boxer_favoured_witness :
  get_random plain_float (ReqText "0.40") = Ok 0.40%Q /\
  (0.40 < 1 # 2)%Q /\
  exists db',
    fight plain_float (ReqText "0.40") (mkWorld [Rocky; Creed] gym)
    = (Ok "Rocky", mkWorld [] db').
Proof.
  split; [reflexivity|]. split; [reflexivity|].
  exact (proj2 (proj2
    (first_boxer_favoured plain_float Rocky Creed gym
       (mkRow 1 "Rocky" 190 70 72 28 0 0) (mkRow 2 "Creed" 185 71 73 30 0 0)
       (ReqText "0.40") 0.40%Q eq_refl eq_refl eq_refl eq_refl))).
Defined.

(** X14 when Creed is not stored: the win of Rocky is recorded, Creed is
    not found, and both are still in the ring. *)
Lemma fight_partial_update_witness :
  let db := [mkRow 1 "Rocky" 190 70 72 28 0 0] in
  fight plain_float (ReqText "0.40") (mkWorld [Rocky; Creed] db)
  = (Raise (ValueError "Boxer with ID 2 not found."),
     mkWorld [Rocky; Creed] [mkRow 1 "Rocky" 190 70 72 28 1 1]) /\
  fight plain_float (ReqText "0.40") (mkWorld [Creed; Rocky] db)
  = (Raise (ValueError "Boxer with ID 2 not found."),
     mkWorld [Creed; Rocky] db).
Proof.
  intros db. split.
  - exact (proj1 (proj1
      (fight_partial_update plain_float Rocky Creed db (ReqText "0.40")
         0.40%Q eq_refl eq_refl)
      (mkRow 1 "Rocky" 190 70 72 28 0 0) eq_refl eq_refl)).
  - exact (proj2
      (fight_partial_update plain_float Creed Rocky db (ReqText "0.40")
         0.40%Q eq_refl eq_refl) eq_refl).
Defined.

(** X16 after the fight of Rocky and Creed. *)
Lemma fight_returns_witness :
  exists w',
    fight plain_float (ReqText "0.40") (mkWorld [Rocky; Creed] gym)
    = (Ok "Rocky", w') /\
    ring w' = [] /\
    fight plain_float (ReqText "0.40") w'
    = (Raise (ValueError "There must be two boxers to start a fight."), w').
Proof.
  eexists. split; [exact rocky_beats_creed|].
  destruct (fight_returns plain_float (ReqText "0.40") _ _ _ rocky_beats_creed)
    as (a & b & _ & _ & Hring & Hagain).
  split; [exact Hring | apply Hagain].
Defined.

(** X18 for the same fight: the gym had no fight and no win, and has two
    fights and one win. *)
Lemma fight_totals_witness :
  NoDup (map row_id gym) /\
  exists w',
    fight plain_float (ReqText "0.40") (mkWorld [Rocky; Creed] gym)
    = (Ok "Rocky", w') /\
    total_fights (db w') = 2 /\ total_wins (db w') = 1.
Proof.
  assert (NoDup (map row_id gym)) as Hnd.
  { repeat constructor; simpl; intuition discriminate. }
  split; [exact Hnd|]. eexists. split; [exact rocky_beats_creed|].
  exact (fight_totals plain_float Rocky Creed gym (ReqText "0.40") _ _
           Hnd rocky_beats_creed).
Defined.

(* ================================================================= *)
(** ** More of the random source *)

(** A string of whitespace only, and the two ends of a string. *)
Fixpoint all_space (s : string) : bool :=
  match s with
  | EmptyString => true
  | String c s' => isspace c && all_space s'
  end.

Definition first_char (s : string) : option ascii :=
  match s with
  | EmptyString => None
  | String c _ => Some c
  end.

Fixpoint last_char (s : string) : option ascii :=
  match s with
  | EmptyString => None
  | String c EmptyString => Some c
  | String _ s' => last_char s'
  end.

Definition not_space (c : option ascii) : Prop :=
  match c with
  | Some c => isspace c = false
  | None => True
  end.

Section Whitespace.

Variable py_float : string -> option Q.

Lemma lstrip_spaces (ws s : string) :
  all_space ws = true -> lstrip (ws ++ s) = lstrip s.
Proof.
  induction ws as [|c ws IH]; simpl; [reflexivity|].
  intros H. apply andb_true_iff in H as [-> H]. exact (IH H).
Qed.

Lemma lstrip_all_space (ws : string) :
  all_space ws = true -> lstrip ws = "".
Proof.
  induction ws as [|c ws IH]; simpl; [reflexivity|].
  intros H. apply andb_true_iff in H as [-> H]. exact (IH H).
Qed.

Lemma rstrip_all_space (ws : string) :
  all_space ws = true -> rstrip ws = "".
Proof.
  induction ws as [|c ws IH]; simpl; [reflexivity|].
  intros H. apply andb_true_iff in H as [-> H]. rewrite (IH H). reflexivity.
Qed.

Lemma rstrip_spaces (s ws : string) :
  all_space ws = true -> rstrip (s ++ ws) = rstrip s.
Proof.
  intros H. induction s as [|c s IH]; simpl.
  - apply rstrip_all_space, H.
  - rewrite IH. reflexivity.
Qed.

Lemma strip_right_spaces (s ws : string) :
  all_space ws = true -> strip (s ++ ws) = strip s.
Proof.
  intros H. unfold strip. induction s as [|c s IH]; simpl.
  - rewrite (lstrip_all_space ws H). reflexivity.
  - destruct (isspace c); [exact IH|].
    change (String c (s ++ ws)) with (String c s ++ ws).
    apply rstrip_spaces, H.
Qed.

Lemma first_char_lstrip (s : string) : not_space (first_char (lstrip s)).
Proof.
  induction s as [|c s IH]; simpl; [exact I|].
  destruct (isspace c) eqn:E; [exact IH | exact E].
Qed.

Lemma rstrip_headed (s : string) :
  not_space (first_char s) -> first_char (rstrip s) = first_char s.
Proof.
  destruct s as [|c s]; simpl; [reflexivity|].
  intros ->. reflexivity.
Qed.

Lemma last_char_rstrip (s : string) : not_space (last_char (rstrip s)).
Proof.
  induction s as [|c s IH]; simpl; [exact I|].
  destruct (isspace c && (rstrip s =? "")%string) eqn:E; [exact I|].
  destruct (rstrip s) as [|c' r] eqn:Hr.
  - simpl. rewrite andb_true_r in E. exact E.
  - exact IH.
Qed.

(** X19. [get_random] reads the response body without the whitespace
    around it: a body with whitespace before and after gives what the bare
    body gives, the value or the error.  The text it hands to [float] and
    quotes in its error message neither starts nor ends with whitespace. *)
Theorem get_random_ignores_whitespace (ws text ws' : string) :
  all_space ws = true ->
  all_space ws' = true ->
  get_random py_float (ReqText (ws ++ text ++ ws'))
  = get_random py_float (ReqText text) /\
  strip (ws ++ text ++ ws') = strip text /\
  not_space (first_char (strip text)) /\
  not_space (last_char (strip text)).
Proof.
  intros Hws Hws'.
  assert (strip (ws ++ text ++ ws') = strip text) as Hstrip.
  { unfold strip at 1. rewrite (lstrip_spaces ws _ Hws).
    apply (strip_right_spaces text ws' Hws'). }
  split; [simpl; rewrite Hstrip; reflexivity|].
  split; [exact Hstrip|]. split.
  - unfold strip. rewrite rstrip_headed; apply first_char_lstrip.
  - apply last_char_rstrip.
Qed.

End Whitespace.

(** X19 on the body the service sends, a number and a newline. *)
Lemma get_random_ignores_whitespace_witness :
  all_space " " = true /\
  get_random plain_float (ReqText " 0.42
") = Ok 0.42%Q /\
  get_random plain_float (ReqText "  abc ")
  = Raise (ValueError "Invalid response from random.org: abc").
Proof.
  split; [reflexivity|]. split.
  - exact (proj1 (get_random_ignores_whitespace plain_float
                    " " "0.42" "
" eq_refl eq_refl)).
  - exact (proj1 (get_random_ignores_whitespace plain_float
                    "  " "abc" " " eq_refl eq_refl)).
Defined.

(* ================================================================= *)
(** ** From the ring to the leaderboard *)

Section RingToLeaderboard.

Variable py_float : string -> option Q.

Lemma Forall2_In_l {A B : Type} (P : A -> B -> Prop) (l : list A)
    (l' : list B) (x : A) :
  Forall2 P l l' -> In x l -> exists y, In y l' /\ P x y.
Proof.
  induction 1 as [|a b l l' Hab _ IH]; intros Hin; [destruct Hin|].
  destruct Hin as [<- | Hin].
  - exists b. split; [left; reflexivity | exact Hab].
  - destruct (IH Hin) as (y & Hy & Hxy). exists y.
    split; [right; exact Hy | exact Hxy].
Qed.

(** The rows of the winner and of the loser after both updates. *)
Lemma rows_after_both (i j : Z) (db0 : Table) (r1 r2 : Row) :
  find_row i db0 = Some r1 ->
  find_row j (update_where_id i set_win db0) = Some r2 ->
  let db' := update_where_id j set_loss (update_where_id i set_win db0) in
  forall k, k = i \/ k = j ->
    exists r r', find_row k db0 = Some r /\ find_row k db' = Some r' /\
                 row_fights r < row_fights r'.
Proof.
  intros H1 H2 db' k Hk. subst db'.
  destruct (Z.eq_dec j i) as [->|Hne].
  - assert (k = i) as -> by (destruct Hk; assumption).
    rewrite find_row_update_same, H1 in H2 by reflexivity.
    injection H2 as <-.
    exists r1, (set_loss (set_win r1)). split; [exact H1|]. split.
    + rewrite !find_row_update_same, H1 by reflexivity. reflexivity.
    + simpl. lia.
  - destruct Hk as [-> | ->].
    + exists r1, (set_win r1). split; [exact H1|]. split.
      * rewrite find_row_update_other by (congruence || reflexivity).
        rewrite find_row_update_same, H1 by reflexivity. reflexivity.
      * simpl. lia.
    + exists r2, (set_loss r2).
      pose proof H2 as H2'.
      rewrite find_row_update_other in H2' by (assumption || reflexivity).
      split; [exact H2'|]. split.
      * rewrite find_row_update_same, H2 by reflexivity. reflexivity.
      * simpl. lia.
Qed.

Lemma fight_ok_rows (boxer_1 boxer_2 : Boxer.t) (db0 : Table)
    (net : http_outcome) (name : string) (w' : World) :
  fight py_float net (mkWorld [boxer_1; boxer_2] db0) = (Ok name, w') ->
  Forall row_valid db0 ->
  Forall row_valid (db w') /\
  forall k, k = Boxer.id boxer_1 \/ k = Boxer.id boxer_2 ->
    exists r r', find_row k db0 = Some r /\ find_row k (db w') = Some r' /\
                 row_fights r < row_fights r'.
Proof.
  intros H Hdb. rewrite fight_ready in H.
  assert (forall i j db1 db2,
            update_boxer_stats i "win" db0 = (Ok tt, db1) ->
            update_boxer_stats j "loss" db1 = (Ok tt, db2) ->
            Forall row_valid db2 /\
            forall k, k = i \/ k = j ->
              exists r r', find_row k db0 = Some r /\
                           find_row k db2 = Some r' /\
                           row_fights r < row_fights r') as Hboth.
  { intros i j db1 db2 H1 H2.
    apply update_win_ok in H1 as (r1 & Hr1 & ->).
    apply update_loss_ok in H2 as (r2 & Hr2 & ->).
    split; [|exact (rows_after_both i j db0 r1 r2 Hr1 Hr2)].
    apply update_where_id_valid;
      [|apply update_where_id_valid; [|exact Hdb]];
      intros r (Hw & Hh & Hr & Ha & Hf); unfold row_valid; simpl;
      repeat split; assumption || lia. }
  destruct (get_random py_float net) as [r|e]; [|discriminate].
  destruct (Rlt_dec (Q2R r) (win_probability boxer_1 boxer_2)) as [Hlt|Hge].
  - destruct (update_boxer_stats (Boxer.id boxer_1) "win" db0)
      as [[[]|e1] db1] eqn:H1; [|discriminate].
    destruct (update_boxer_stats (Boxer.id boxer_2) "loss" db1)
      as [[[]|e2] db2] eqn:H2; [|discriminate].
    injection H as _ <-. exact (Hboth _ _ _ _ H1 H2).
  - destruct (update_boxer_stats (Boxer.id boxer_2) "win" db0)
      as [[[]|e1] db1] eqn:H1; [|discriminate].
    destruct (update_boxer_stats (Boxer.id boxer_1) "loss" db1)
      as [[[]|e2] db2] eqn:H2; [|discriminate].
    injection H as _ <-. destruct (Hboth _ _ _ _ H1 H2) as [Hv Hrows].
    split; [exact Hv|]. intros k Hk. apply Hrows. tauto.
Qed.

(** X20. After a [fight] that returned, on a table of valid rows, both
    boxers of the ring are on the leaderboard, for either sort key. *)
Theorem fighters_on_leaderboard (boxer_1 boxer_2 : Boxer.t) (db0 : Table)
    (net : http_outcome) (name : string) (w' : World) (sort_by : string) :
  Forall row_valid db0 ->
  fight py_float net (mkWorld [boxer_1; boxer_2] db0) = (Ok name, w') ->
  sort_by = "wins" \/ sort_by = "win_pct" ->
  exists board,
    get_leaderboard sort_by (db w') = Ok board /\
    (exists e, In e board /\ e_id e = Boxer.id boxer_1) /\
    (exists e, In e board /\ e_id e = Boxer.id boxer_2).
Proof.
  intros Hdb Hfight Hsort.
  destruct (fight_ok_rows _ _ _ _ _ _ Hfight Hdb) as [Hv Hrows].
  assert (forall sorted,
            Permutation sorted (select_fought (db w')) ->
            exists board,
              build_leaderboard sorted = Ok board /\
              (exists e, In e board /\ e_id e = Boxer.id boxer_1) /\
              (exists e, In e board /\ e_id e = Boxer.id boxer_2)) as Hboard.
  { intros sorted Hperm.
    destruct (leaderboard_of_sorted (db w') sorted)
      as (board & Hb & Hp & Hshows & _); [|exact Hperm|].
    { eapply Forall_impl; [|exact Hv]. intros r Hr. apply Hr. }
    exists board. split; [exact Hb|].
    assert (forall k, k = Boxer.id boxer_1 \/ k = Boxer.id boxer_2 ->
                      exists e, In e board /\ e_id e = k) as Hin.
    { intros k Hk. destruct (Hrows k Hk) as (r & r' & Hr & Hr' & Hlt).
      unfold find_row in Hr, Hr'.
      apply find_some in Hr as [Hrin _].
      apply find_some in Hr' as [Hrin' Hid]. apply Z.eqb_eq in Hid.
      rewrite Forall_forall in Hdb.
      destruct (Hdb r Hrin) as (_ & _ & _ & _ & Hwins & Hfights).
      assert (In r' (map fst sorted)) as Hsorted.
      { eapply Permutation_in; [apply Permutation_sym, Hp|].
        apply filter_In. split; [exact Hrin'|]. apply Z.gtb_lt. lia. }
      destruct (Forall2_In_l _ _ _ _ Hshows Hsorted) as (e & He & Hshow).
      exists e. split; [exact He|]. destruct Hshow as (-> & _). exact Hid. }
    split; apply Hin; [left | right]; reflexivity. }
  unfold get_leaderboard.
  destruct Hsort as [-> | ->]; simpl; apply Hboard, order_by_desc_perm.
Qed.

End RingToLeaderboard.

(** X20 after the fight of Rocky and Creed: both are on the board sorted
    by wins, Rocky first. *)
Lemma fighters_on_leaderboard_witness :
  Forall row_valid gym /\
  exists w' board,
    fight plain_float (ReqText "0.40") (mkWorld [Rocky; Creed] gym)
    = (Ok "Rocky", w') /\
    get_leaderboard "wins" (db w') = Ok board /\
    map e_name board = ["Rocky"; "Creed"] /\
    (exists e, In e board /\ e_id e = 1) /\
    (exists e, In e board /\ e_id e = 2).
Proof.
  assert (Forall row_valid gym) as Hgym.
  { repeat constructor; simpl; try lia; reflexivity. }
  split; [exact Hgym|].
  destruct (fighters_on_leaderboard plain_float Rocky Creed gym
              (ReqText "0.40") "Rocky" _ "wins" Hgym rocky_beats_creed
              (or_introl eq_refl)) as (board & Hb & H1 & H2).
  eexists. exists board. split; [exact rocky_beats_creed|].
  split; [exact Hb|]. split; [|split; assumption].
  vm_compute in Hb. injection Hb as <-. reflexivity.
Defined.
